(** * WebhookService: a shallow embedding of web/src/services/WebhookService.js

    The service posts a recorded shot to a user-configured HTTP endpoint.
    Its four methods are embedded below, in source order:
    [getWebhookSettings], [formatWebhookPayload], [sendWebhook] and
    [validateWebhookUrl].

    JavaScript is dynamically typed, so arguments are modelled as [value]s
    and the operators [!x], [a || b], [x.p] and [x.trim()] get their
    JavaScript meaning on every value.  The two asynchronous methods run in
    a state-and-exception monad whose state holds the outside world, the
    list of requests handed to [fetch] and the console. *)

From Stdlib Require Import String Ascii List Bool NArith ZArith Lia.
From Stdlib Require Import DecimalString.
From Stdlib Require DecimalPos DecimalN.
From Corelib Require Import PrimFloat.
From Stdlib Require Uint63.
Import ListNotations.
Local Open Scope string_scope.

(** ** JavaScript values *)

Module JS.

(** Plain data: what JSON can carry, plus [undefined].  A number is an
    IEEE-754 double, an object is its list of own properties in insertion
    order. *)
#[warnings="-register-all"]
Inductive value : Type :=
| VUndefined
| VNull
| VBool (b : bool)
| VNum (x : float)
| VStr (s : string)
| VArr (xs : list value)
| VObj (props : list (string * value)).

(** ToBoolean: [undefined], [null], [false], [0], [-0], [NaN] and the empty
    string are falsy, everything else (every object and array) is truthy. *)
Definition truthy (v : value) : bool :=
  match v with
  | VUndefined | VNull => false
  | VBool b => b
  | VNum x => negb (PrimFloat.is_zero x || PrimFloat.is_nan x)
  | VStr s => negb (s =? "")
  | VArr _ | VObj _ => true
  end.

(** [a || b] *)
Definition or_else (a b : value) : value := if truthy a then a else b.

(** [v == null]: the value is [null] or [undefined]. *)
Definition nullish (v : value) : bool :=
  match v with
  | VUndefined | VNull => true
  | _ => false
  end.

(** An [Error] object as the program observes it: [name] and [message]. *)
Record error : Type := mkError { name : string; message : string }.

(** [new Error(msg)] *)
Definition Error (msg : string) : error := mkError "Error" msg.
Definition TypeError (msg : string) : error := mkError "TypeError" msg.
Definition SyntaxError (msg : string) : error := mkError "SyntaxError" msg.

(** The result of evaluating an expression or awaiting a promise. *)
Inductive outcome (A : Type) : Type :=
| Return (a : A)
| Throw (e : error).
Arguments Return {A} a.
Arguments Throw {A} e.

(** Own-property lookup in an object literal or a parsed JSON object; of
    several entries with one key the last one wins, as in [JSON.parse]. *)
Fixpoint lookup (k : string) (props : list (string * value)) : option value :=
  match props with
  | [] => None
  | (k', v) :: rest =>
      match lookup k rest with
      | Some w => Some w
      | None => if k' =? k then Some v else None
      end
  end.

(** [v.k] for the property names this program reads ([id], [timestamp],
    [profile], [profileId], [duration], [volume], [incomplete], [samples],
    [notes], [webhookUrl], [webhookAuthToken]): none of them exists on the
    prototypes of strings, numbers, booleans or arrays, so every value but
    an object yields [undefined], and [null] and [undefined] throw. *)
Definition get (v : value) (k : string) : outcome value :=
  match v with
  | VUndefined | VNull =>
      Throw (TypeError ("Cannot read properties of null or undefined: " ++ k))
  | VObj props =>
      Return (match lookup k props with Some w => w | None => VUndefined end)
  | _ => Return VUndefined
  end.

(** White space and line terminators removed by [String.prototype.trim].
    A character of a [string] stands for the UTF-16 code unit of the same
    number, so the strings of the model are those with code units below
    256; there the set is TAB, LF, VT, FF, CR, SPACE and NBSP. *)
Definition is_white_space (c : ascii) : bool :=
  let n := nat_of_ascii c in
  ((9 <=? n) && (n <=? 13) || (n =? 32) || (n =? 160))%nat.

Fixpoint trim_start (s : string) : string :=
  match s with
  | String c rest => if is_white_space c then trim_start rest else s
  | EmptyString => EmptyString
  end.

(** Drops trailing white space: a character is kept when something that
    is kept follows it or when it is not white space itself. *)
Fixpoint trim_end (s : string) : string :=
  match s with
  | EmptyString => EmptyString
  | String c rest =>
      match trim_end rest with
      | EmptyString => if is_white_space c then EmptyString else String c EmptyString
      | kept => String c kept
      end
  end.

(** [s.trim()] *)
Definition trim (s : string) : string := trim_end (trim_start s).

(** [v.trim()]: only strings have the method; plain data holds no
    functions, so the call throws on every other truthy value, and on
    [null] and [undefined]. *)
Definition call_trim (v : value) : outcome string :=
  match v with
  | VStr s => Return (trim s)
  | _ => Throw (TypeError "trim is not a function")
  end.

(** A string made of white space only (the empty string included). *)
Fixpoint whitespace_only (s : string) : bool :=
  match s with
  | EmptyString => true
  | String c rest => is_white_space c && whitespace_only rest
  end.

(** [s.includes(needle)] *)
Fixpoint includes (s needle : string) : bool :=
  prefix needle s ||
  match s with
  | EmptyString => false
  | String _ rest => includes rest needle
  end.

End JS.

(** ** The platform: fetch, Response, JSON and URL *)

Module Platform.
Import JS.

(** The arguments of one [fetch(url, { method, headers, body })] call.
    [headers] is the plain object the caller built: its own properties,
    in insertion order. *)
Record request : Type := mkRequest {
  req_url : string;
  req_method : string;
  req_headers : list (string * string);
  req_body : option string
}.

(** [fetch(url)]: a GET with no headers and no body. *)
Definition GET (url : string) : request := mkRequest url "GET" [] None.

(** What the program reads of a [Response]: [status], the value of
    [headers.get('content-type')] ([None] for [null]), and the body text
    that [text()] and [json()] read, or the error that reading raises. *)
Record response : Type := mkResponse {
  status : N;
  content_type : option string;
  body : outcome string
}.

(** [response.ok]: by the Fetch standard, true when the status is in the
    range 200 to 299. *)
Definition ok (r : response) : bool :=
  ((200 <=? status r) && (status r <=? 299))%N.

(** [response.text()] *)
Definition text (r : response) : outcome string := body r.

(** A parsed [URL]; the program reads its [protocol] only. *)
Record URL : Type := mkURL { protocol : string }.

(** Property [k] of a headers object. *)
Fixpoint header (k : string) (hs : list (string * string)) : option string :=
  match hs with
  | [] => None
  | (k', v) :: rest => if k' =? k then Some v else header k rest
  end.

(** [hs[k] = v]: replaces the property where it stands, or adds it last. *)
Fixpoint set_header (k v : string) (hs : list (string * string))
  : list (string * string) :=
  match hs with
  | [] => [(k, v)]
  | (k', v') :: rest =>
      if k' =? k then (k', v) :: rest else (k', v') :: set_header k v rest
  end.

(** Decimal digits of a status code, as in the template literal
    [`${response.status}`]. *)
Definition string_of_status (n : N) : string :=
  NilZero.string_of_uint (N.to_uint n).

(** The status code as a JavaScript number. *)
Definition number_of_status (n : N) : float :=
  PrimFloat.of_uint63 (Uint63.of_Z (Z.of_N n)).

End Platform.

(** ** The service *)

Module WebhookService.
Import JS Platform.

(** The object returned by [getWebhookSettings]. *)
Record settings : Type := mkSettings { url : value; authToken : value }.

(** A parameter declared [p = null]: [undefined] is replaced by [null]. *)
Definition default_null (v : value) : value :=
  match v with
  | VUndefined => VNull
  | _ => v
  end.

(** [`${v}`] and the conversion of [fetch]'s first argument.  The program
    converts a value only after [v.trim()] has returned, that is a string;
    [call_trim] has thrown on every other value before. *)
Definition to_string (v : value) : string :=
  match v with
  | VStr s => s
  | _ => ""
  end.

(** Sequencing of expressions that may throw. *)
Definition and_then {A B : Type} (c : outcome A) (k : A -> outcome B) : outcome B :=
  match c with
  | Return a => k a
  | Throw e => Throw e
  end.

Notation "'let?' x ':=' c 'in' k" := (and_then c (fun x => k))
  (at level 10, x name, c at level 100, k at level 200).

(** [formatWebhookPayload(shot, notes = null)] *)
Definition formatWebhookPayload (shot notes : value) : outcome value :=
  let notes := default_null notes in
  if negb (truthy shot) then
    Throw (Error "Invalid shot data: shot is required")
  else
    let? shot_id := get shot "id" in
    let? shot_timestamp := get shot "timestamp" in
    let? shot_profile := get shot "profile" in
    let? shot_profileId := get shot "profileId" in
    let? shot_duration := get shot "duration" in
    let? shot_volume := get shot "volume" in
    let? shot_incomplete := get shot "incomplete" in
    let? shot_samples := get shot "samples" in
    let? shot_notes := get shot "notes" in
    Return (VObj
      [ ("id", shot_id);
        ("timestamp", shot_timestamp);
        ("profile", shot_profile);
        ("profileId", shot_profileId);
        ("duration", shot_duration);
        ("volume", shot_volume);
        ("incomplete", or_else shot_incomplete (VBool false));
        ("samples", or_else shot_samples (VArr []));
        ("notes", or_else (or_else notes shot_notes) VNull) ]).

(** [!url || url.trim() === ''] *)
Definition missing_or_blank (url : value) : outcome bool :=
  if negb (truthy url) then Return true
  else let? trimmed := call_trim url in Return (trimmed =? "").

(** [token && token.trim() !== ''] *)
Definition token_provided (token : value) : outcome bool :=
  if truthy token then let? trimmed := call_trim token in Return (negb (trimmed =? ""))
  else Return false.

(** The headers of the POST: the object literal, then the conditional
    assignment of ['Authorization']. *)
Definition base_headers : list (string * string) :=
  [ ("Content-Type", "application/json");
    ("Accept", "application/json");
    ("User-Agent", "GaggiMate-WebUI/1.0") ].

Definition build_headers (token : value) : outcome (list (string * string)) :=
  let headers := base_headers in
  let? provided := token_provided token in
  Return (if provided
          then set_header "Authorization" ("Bearer " ++ to_string token) headers
          else headers).

(** [contentType && contentType.includes('application/json')] *)
Definition is_json (contentType : option string) : bool :=
  match contentType with
  | Some ct => negb (ct =? "") && includes ct "application/json"
  | None => false
  end.

Definition auth_failed : error :=
  Error "Authentication failed - please check your auth token".
Definition validation_failed : error :=
  Error "Data validation failed - the webhook server rejected the data format".
Definition http_error (status : N) (errorText : string) : error :=
  Error ("HTTP " ++ string_of_status status ++ ": " ++ errorText).
Definition network_error : error :=
  Error "Network error: Unable to connect to webhook URL".
Definition not_configured_error : error :=
  Error "Webhook URL is not configured".
Definition invalid_shot : error :=
  Error "Invalid shot data: shot is required".

(** The [catch (fetchError)] clause of [sendWebhook]: the error to rethrow. *)
Definition rethrow (fetchError : error) : error :=
  if name fetchError =? "TypeError" then network_error else fetchError.

(** What [catch (fetchError)] makes of the end of the [try] block. *)
Definition caught (result : outcome value) : outcome value :=
  match result with
  | Return v => Return v
  | Throw e => Throw (rethrow e)
  end.

Section Service.

(** The outside world: whatever decides how a request ends.  [network]
    runs one [fetch] to completion: a [Response], or the error the promise
    is rejected with (a [TypeError] when the request cannot be made or
    completed). *)
Variable World : Type.
Variable network : request -> World -> outcome response * World.

(** [JSON.parse] ([None]: a [SyntaxError]) and [JSON.stringify]. *)
Variable JSON_parse : string -> option value.
Variable JSON_stringify : value -> string.

(** [new URL(url)] ([None]: a [TypeError]). *)
Variable URL_parse : string -> option URL.

(** The state threaded through the asynchronous methods. *)
Record state : Type := mkState {
  world : World;
  requests : list request;
  console : list (string * error)
}.

(** An asynchronous computation: awaited to completion from a state, it
    returns or throws, and leaves a state either way. *)
Definition M (A : Type) : Type := state -> outcome A * state.

Definition ret {A : Type} (a : A) : M A := fun st => (Return a, st).
Definition throw {A : Type} (e : error) : M A := fun st => (Throw e, st).
Definition lift {A : Type} (c : outcome A) : M A := fun st => (c, st).

Definition bind {A B : Type} (c : M A) (k : A -> M B) : M B :=
  fun st =>
    match c st with
    | (Return a, st') => k a st'
    | (Throw e, st') => (Throw e, st')
    end.

(** [try { c } catch (e) { handler e }] *)
Definition try_catch {A : Type} (c : M A) (handler : error -> M A) : M A :=
  fun st =>
    match c st with
    | (Return a, st') => (Return a, st')
    | (Throw e, st') => handler e st'
    end.

Notation "x <- c ;; k" := (bind c (fun x => k))
  (at level 100, c at next level, right associativity).
Notation "c ;;; k" := (bind c (fun _ => k))
  (at level 100, right associativity).

(** [await fetch(...)]: the request is recorded, the world answers. *)
Definition fetch (req : request) : M response :=
  fun st =>
    let (result, w) := network req (world st) in
    (result, mkState w (requests st ++ [req]) (console st)).

(** [console.error(label, error)] *)
Definition console_error (label : string) (e : error) : M unit :=
  fun st => (Return tt, mkState (world st) (requests st) (console st ++ [(label, e)])).

(** [await response.json()]: reads the body, then parses it. *)
Definition json (r : response) : outcome value :=
  let? txt := body r in
  match JSON_parse txt with
  | Some v => Return v
  | None => Throw (SyntaxError "Unexpected token in JSON")
  end.

(** [async getWebhookSettings()] *)
Definition getWebhookSettings : M settings :=
  try_catch
    (response <- fetch (GET "/api/settings") ;;
     settings <- lift (json response) ;;
     webhookUrl <- lift (get settings "webhookUrl") ;;
     webhookAuthToken <- lift (get settings "webhookAuthToken") ;;
     ret (mkSettings (or_else webhookUrl (VStr "")) (or_else webhookAuthToken (VStr ""))))
    (fun error =>
       console_error "Failed to fetch webhook settings:" error ;;;
       ret (mkSettings (VStr "") (VStr ""))).

(** Lines 64 to 71 of [sendWebhook]: the URL and the token the request is
    made with. *)
Definition resolveConfig (webhookUrl authToken : value) : M (value * value) :=
  let url := webhookUrl in
  let token := authToken in
  if negb (truthy url) || negb (truthy token) then
    settings <- getWebhookSettings ;;
    ret (or_else url (WebhookService.url settings), or_else token (WebhookService.authToken settings))
  else
    ret (url, token).

(** Lines 98 to 120 of [sendWebhook]: what a received response is turned
    into. *)
Definition handle_response (response : response) : outcome value :=
  if negb (ok response) then
    let? errorText := text response in
    if (status response =? 401)%N || (status response =? 403)%N then
      Throw auth_failed
    else if (status response =? 422)%N then
      Throw validation_failed
    else
      Throw (http_error (status response) errorText)
  else
    let contentType := content_type response in
    if is_json contentType then
      json response
    else
      Return (VObj [ ("success", VBool true);
                     ("status", VNum (number_of_status (status response))) ]).

(** The request of line 92. *)
Definition post_request (url : value) (headers : list (string * string))
  (payload : value) : request :=
  mkRequest (to_string url) "POST" headers (Some (JSON_stringify payload)).

(** The body of the [try] block of [sendWebhook]. *)
Definition post (url : value) (headers : list (string * string)) (payload : value)
  : M value :=
  response <- fetch (post_request url headers payload) ;;
  lift (handle_response response).

(** Lines 73 to 127 of [sendWebhook], from the resolved URL and token on. *)
Definition deliver (shot notes url token : value) : M value :=
  unconfigured <- lift (missing_or_blank url) ;;
  if unconfigured then
    throw not_configured_error
  else
    payload <- lift (formatWebhookPayload shot notes) ;;
    headers <- lift (build_headers token) ;;
    try_catch
      (post url headers payload)
      (fun fetchError => throw (rethrow fetchError)).

(** [async sendWebhook(shot, notes = null, webhookUrl = null, authToken = null)] *)
Definition sendWebhook (shot notes webhookUrl authToken : value) : M value :=
  let notes := default_null notes in
  let webhookUrl := default_null webhookUrl in
  let authToken := default_null authToken in
  config <- resolveConfig webhookUrl authToken ;;
  deliver shot notes (fst config) (snd config).

(** [validateWebhookUrl(url)] *)
Definition validateWebhookUrl (url : value) : outcome bool :=
  let? unconfigured := missing_or_blank url in
  if unconfigured then
    Return false
  else
    match URL_parse (to_string url) with
    | Some parsed => Return ((protocol parsed =? "http:") || (protocol parsed =? "https:"))
    | None => Return false
    end.

(** *** Vocabulary for the runs of the methods *)

(** The state after one more request. *)
Definition requested (req : request) (w : World) (st : state) : state :=
  mkState w (requests st ++ [req]) (console st).

(** The state after one more line on the console. *)
Definition logged (label : string) (e : error) (st : state) : state :=
  mkState (world st) (requests st) (console st ++ [(label, e)]).

Definition settings_request : request := GET "/api/settings".
Definition empty_settings : settings := mkSettings (VStr "") (VStr "").

(** What the settings are read as from a received response: the [try]
    block of [getWebhookSettings] after its [fetch]. *)
Definition read_settings (r : response) : outcome settings :=
  let? parsed := json r in
  let? webhookUrl := get parsed "webhookUrl" in
  let? webhookAuthToken := get parsed "webhookAuthToken" in
  Return (mkSettings (or_else webhookUrl (VStr "")) (or_else webhookAuthToken (VStr ""))).

End Service.

End WebhookService.

(** ** A concrete platform

    Closed instances of the platform, on which the service can be run. *)

Module Scenario.
Import JS Platform WebhookService.

(** A scripted world: the answers to the coming requests, in order.  When
    the script is exhausted no host can be reached, and [fetch] rejects
    with the [TypeError] browsers raise for that. *)
Definition World : Type := list (outcome response).

Definition failed_to_fetch : error := TypeError "Failed to fetch".

Definition network (req : request) (w : World) : outcome response * World :=
  match w with
  | answer :: rest => (answer, rest)
  | [] => (Throw failed_to_fetch, [])
  end.

(** The double quote character. *)
Definition quote : string := String (ascii_of_nat 34) "".

(** The text [{"ok":true}]. *)
Definition ok_true_text : string := "{" ++ quote ++ "ok" ++ quote ++ ":true}".

(** The text [{"webhookUrl":"https://example.com/hook","webhookAuthToken":" t "}]. *)
Definition settings_text : string :=
  "{" ++ quote ++ "webhookUrl" ++ quote ++ ":" ++ quote
      ++ "https://example.com/hook" ++ quote ++ ","
      ++ quote ++ "webhookAuthToken" ++ quote ++ ":" ++ quote ++ " t " ++ quote ++ "}".

(** [JSON.parse] as a table of the texts the scenarios use; every other
    text is taken as malformed, which is what [JSON.parse] answers for
    the empty text and for [boom]. *)
Definition JSON_parse (txt : string) : option value :=
  if txt =? ok_true_text then Some (VObj [("ok", VBool true)])
  else if txt =? settings_text then
    Some (VObj [ ("webhookUrl", VStr "https://example.com/hook");
                 ("webhookAuthToken", VStr " t ") ])
  else if txt =? "{}" then Some (VObj [])
  else if txt =? "null" then Some VNull
  else None.

(** The request body is not inspected by any scenario. *)
Definition JSON_stringify (v : value) : string := "{}".

Definition is_alpha (c : ascii) : bool :=
  let n := nat_of_ascii c in
  ((65 <=? n) && (n <=? 90) || (97 <=? n) && (n <=? 122))%nat.

Definition is_scheme_char (c : ascii) : bool :=
  let n := nat_of_ascii c in
  (is_alpha c || (48 <=? n) && (n <=? 57) || (n =? 43) || (n =? 45) || (n =? 46))%nat.

Definition lower (c : ascii) : ascii :=
  let n := nat_of_ascii c in
  if ((65 <=? n) && (n <=? 90))%nat then ascii_of_nat (n + 32) else c.

(** The scheme of a URL text: the characters before the first colon,
    lower-cased, when all of them may occur in a scheme. *)
Fixpoint scan_scheme (s : string) : option string :=
  match s with
  | EmptyString => None
  | String c rest =>
      if (c =? ":")%char then Some ""
      else if is_scheme_char c then
        match scan_scheme rest with
        | Some scheme => Some (String (lower c) scheme)
        | None => None
        end
      else None
  end.

(** [new URL(url)] reduced to the scheme states of the URL standard: the
    text must start with a letter and hold a scheme before its first
    colon.  What follows the colon is accepted as it is. *)
Definition URL_parse (s : string) : option URL :=
  match s with
  | EmptyString => None
  | String c _ =>
      if is_alpha c then
        match scan_scheme s with
        | Some scheme => Some (mkURL (scheme ++ ":"))
        | None => None
        end
      else None
  end.

Definition state : Type := WebhookService.state World.

(** A fresh page: nothing requested, nothing logged. *)
Definition start (w : World) : state := mkState World w [] [].

Definition sendWebhook : value -> value -> value -> value -> M World value :=
  WebhookService.sendWebhook World network JSON_parse JSON_stringify.

Definition resolveConfig : value -> value -> M World (value * value) :=
  WebhookService.resolveConfig World network JSON_parse.

Definition validateWebhookUrl : value -> outcome bool :=
  WebhookService.validateWebhookUrl URL_parse.

(** A recorded shot, with notes of its own. *)
Definition shot : value :=
  VObj [ ("id", VStr "000042");
         ("timestamp", VNum 1700000000%float);
         ("profile", VStr "Classic");
         ("profileId", VStr "p1");
         ("duration", VNum 28500%float);
         ("volume", VNum 36.5%float);
         ("samples", VArr [ VObj [("t", VNum 0%float); ("cp", VNum 1.5%float)] ]);
         ("notes", VStr "old") ].

(** A response whose body has been received. *)
Definition reply (status : N) (content_type : option string) (txt : string) : response :=
  mkResponse status content_type (Return txt).

Definition hook : string := "https://example.com/hook".
Definition secret : value := VStr "secret".

(** The payload of [shot] without a notes override. *)
Definition payload : value :=
  Eval vm_compute in
    match formatWebhookPayload shot VNull with
    | Return p => p
    | Throw _ => VNull
    end.

(** The headers built for the token [secret], and for the token [" t "]. *)
Definition secret_headers : list (string * string) :=
  Eval vm_compute in
    match build_headers secret with
    | Return hs => hs
    | Throw _ => []
    end.

Definition spaced_headers : list (string * string) :=
  Eval vm_compute in
    match build_headers (VStr " t ") with
    | Return hs => hs
    | Throw _ => []
    end.

(** The POST of [shot] to [url] with the given headers. *)
Definition posted (url : string) (headers : list (string * string)) : request :=
  post_request JSON_stringify (VStr url) headers payload.

(** A send of [shot] with the URL and the token given by the caller. *)
Definition send_to (url : string) (w : World) : outcome value * state :=
  sendWebhook shot VNull (VStr url) secret (start w).

(** A send of [shot] with the URL and the token left to the settings. *)
Definition send_configured (w : World) : outcome value * state :=
  sendWebhook shot VNull VNull VNull (start w).

(** The settings source answering with [settings_text]. *)
Definition settings_reply : outcome response :=
  Return (reply 200 (Some "application/json") settings_text).

End Scenario.

(** ** The caller: the send-to-webhook action of HistoryCard.jsx *)

Module HistoryCard.
Import JS Platform WebhookService.

Section Component.

Variable World : Type.
Variable network : request -> World -> outcome response * World.
Variable JSON_parse : string -> option value.
Variable JSON_stringify : value -> string.
Variable URL_parse : string -> option URL.

(** What the action reads and writes: the state of the service, the
    messages shown with [alert], in order, and the component's
    [isSendingWebhook]. *)
Record page : Type := mkPage {
  service : state World;
  alerts : list string;
  isSendingWebhook : bool
}.

(** An asynchronous computation of the component. *)
Definition UI (A : Type) : Type := page -> outcome A * page.

Definition ret {A : Type} (a : A) : UI A := fun p => (Return a, p).
Definition lift {A : Type} (c : outcome A) : UI A := fun p => (c, p).

Definition bind {A B : Type} (c : UI A) (k : A -> UI B) : UI B :=
  fun p =>
    match c p with
    | (Return a, p') => k a p'
    | (Throw e, p') => (Throw e, p')
    end.

(** [try { c } catch (e) { handler e }] *)
Definition try_catch {A : Type} (c : UI A) (handler : error -> UI A) : UI A :=
  fun p =>
    match c p with
    | (Return a, p') => (Return a, p')
    | (Throw e, p') => handler e p'
    end.

(** [try { c } finally { cleanup }]: the cleanup runs however [c] ends,
    and the end of [c] stands unless the cleanup throws. *)
Definition try_finally {A : Type} (c : UI A) (cleanup : UI unit) : UI A :=
  fun p =>
    match c p with
    | (result, p') =>
        match cleanup p' with
        | (Return _, p'') => (result, p'')
        | (Throw e, p'') => (Throw e, p'')
        end
    end.

Notation "x <- c ;; k" := (bind c (fun x => k))
  (at level 100, c at next level, right associativity).
Notation "c ;;; k" := (bind c (fun _ => k))
  (at level 100, right associativity).

(** [await] of a method of the service. *)
Definition await {A : Type} (c : M World A) : UI A :=
  fun p =>
    let (result, st) := c (service p) in
    (result, mkPage st (alerts p) (isSendingWebhook p)).

(** [alert(msg)] *)
Definition alert (msg : string) : UI unit :=
  fun p => (Return tt, mkPage (service p) (alerts p ++ [msg]) (isSendingWebhook p)).

(** [setIsSendingWebhook(b)] *)
Definition setIsSendingWebhook (b : bool) : UI unit :=
  fun p => (Return tt, mkPage (service p) (alerts p) b).

(** [console.error(label, error)] *)
Definition console_error (label : string) (e : error) : UI unit :=
  await (WebhookService.console_error World label e).

Definition not_configured_alert : string :=
  "Webhook URL is not configured. Please configure it in Settings.".
Definition invalid_url_alert : string :=
  "Invalid webhook URL. Please check your settings.".
Definition success_alert : string := "Webhook sent successfully!".

(** [handleSendWebhook], for the [shot] and the [shotNotes] the callback
    closes over.  A [return] inside the [try] block ends the block. *)
Definition handleSendWebhook (shot shotNotes : value) : UI unit :=
  setIsSendingWebhook true ;;;
  try_finally
    (try_catch
       (settings <- await (getWebhookSettings World network JSON_parse) ;;
        unconfigured <- lift (missing_or_blank (url settings)) ;;
        if unconfigured then
          alert not_configured_alert
        else
          valid <- lift (validateWebhookUrl URL_parse (url settings)) ;;
          if negb valid then
            alert invalid_url_alert
          else
            (await (sendWebhook World network JSON_parse JSON_stringify
                      shot shotNotes VUndefined VUndefined) ;;;
             alert success_alert))
       (fun error =>
          console_error "Webhook failed:" error ;;;
          alert ("Webhook failed: " ++ message error)))
    (setIsSendingWebhook false).

(** *** Vocabulary for the runs of the action *)

(** The page when the action has ended: the service in state [st], one
    more alert, the flag down. *)
Definition ended (st : state World) (msg : string) (p : page) : page :=
  mkPage st (alerts p ++ [msg]) false.

(** The page after the [catch] clause has handled [e]. *)
Definition failed (st : state World) (e : error) (p : page) : page :=
  ended (logged World "Webhook failed:" e st) ("Webhook failed: " ++ message e) p.

End Component.

End HistoryCard.

(** ** A visit of the page, on a concrete platform *)

Module Visit.
Import JS Platform WebhookService.

(** The text [{"webhookUrl":"ftp://x"}]. *)
Definition ftp_settings_text : string :=
  "{" ++ Scenario.quote ++ "webhookUrl" ++ Scenario.quote ++ ":"
      ++ Scenario.quote ++ "ftp://x" ++ Scenario.quote ++ "}".

(** [JSON.parse] on the texts of a visit. *)
Definition JSON_parse (txt : string) : option value :=
  if txt =? ftp_settings_text then Some (VObj [("webhookUrl", VStr "ftp://x")])
  else Scenario.JSON_parse txt.

Definition page : Type := HistoryCard.page Scenario.World.

(** The page before the click: nothing requested, nothing shown. *)
Definition fresh (w : Scenario.World) : page :=
  HistoryCard.mkPage Scenario.World (Scenario.start w) [] false.

Definition handleSendWebhook : value -> value -> HistoryCard.UI Scenario.World unit :=
  HistoryCard.handleSendWebhook Scenario.World Scenario.network JSON_parse
    Scenario.JSON_stringify Scenario.URL_parse.

Definition getWebhookSettings : M Scenario.World settings :=
  WebhookService.getWebhookSettings Scenario.World Scenario.network JSON_parse.

(** The settings source answering with [ftp_settings_text]. *)
Definition ftp_settings_reply : outcome response :=
  Return (Scenario.reply 200 (Some "application/json") ftp_settings_text).

(** The settings source answering status 500 with [settings_text]. *)
Definition settings_reply_500 : outcome response :=
  Return (Scenario.reply 500 None Scenario.settings_text).

End Visit.

(** ** Properties *)

Module Properties.
Import JS Platform WebhookService.

(** *** Strings *)

Lemma trim_end_empty (s : string) :
  trim_end s = "" <-> whitespace_only s = true.
Proof.
  induction s as [|c rest IH]; simpl.
  - tauto.
  - destruct (trim_end rest) eqn:E.
    + destruct (is_white_space c); simpl.
      * exact IH.
      * split; discriminate.
    + split; [discriminate|].
      intros H. apply andb_true_iff in H. destruct H as [_ H].
      apply IH in H. discriminate.
Qed.

Lemma trim_start_whitespace (s : string) :
  whitespace_only (trim_start s) = whitespace_only s.
Proof.
  induction s as [|c rest IH]; simpl; [reflexivity|].
  destruct (is_white_space c) eqn:E; simpl; [exact IH|].
  rewrite E. reflexivity.
Qed.

(** [s.trim() === ''] holds exactly for the strings of white space. *)
Lemma trim_blank (s : string) : (trim s =? "") = whitespace_only s.
Proof.
  unfold trim. rewrite <- trim_start_whitespace.
  destruct (whitespace_only (trim_start s)) eqn:E.
  - apply trim_end_empty in E. rewrite E. reflexivity.
  - apply String.eqb_neq. intros H. apply trim_end_empty in H. congruence.
Qed.

Example trim_inner_space_kept : trim "  a b  " = "a b".
Proof. reflexivity. Qed.

Example includes_json_with_charset :
  includes "application/json; charset=utf-8" "application/json" = true /\
  includes "text/plain" "application/json" = false.
Proof. split; reflexivity. Qed.

(** *** Truthiness *)

Lemma truthy_default_null (v : value) : truthy (default_null v) = truthy v.
Proof. destruct v; reflexivity. Qed.

Lemma or_else_default_null (v w : value) :
  or_else (default_null v) w = or_else v w.
Proof. destruct v; reflexivity. Qed.

Lemma get_truthy (v : value) (k : string) :
  truthy v = true -> exists w, get v k = Return w.
Proof. destruct v; simpl; try discriminate; eauto. Qed.

(** *** The gate on the URL and the token *)

(** [missing_or_blank] on a string tests for white space only; on a falsy
    value it answers yes; on any other value [trim] is not a function. *)
Lemma missing_or_blank_string (s : string) :
  missing_or_blank (VStr s) = Return (whitespace_only s).
Proof.
  unfold missing_or_blank, call_trim, and_then.
  destruct s as [|c rest]; [reflexivity|].
  cbn [truthy String.eqb negb]. rewrite trim_blank. reflexivity.
Qed.

Lemma missing_or_blank_falsy (v : value) :
  truthy v = false -> missing_or_blank v = Return true.
Proof. unfold missing_or_blank. intros ->. reflexivity. Qed.

Lemma missing_or_blank_false (v : value) :
  missing_or_blank v = Return false ->
  exists s, v = VStr s /\ whitespace_only s = false.
Proof.
  unfold missing_or_blank.
  destruct (truthy v) eqn:T; simpl; [|discriminate].
  destruct v; simpl; try discriminate.
  intros H. exists s. split; [reflexivity|].
  rewrite <- trim_blank. congruence.
Qed.

Lemma token_provided_string (t : string) :
  token_provided (VStr t) = Return (negb (whitespace_only t)).
Proof.
  unfold token_provided, call_trim, and_then.
  destruct t as [|c rest]; [reflexivity|].
  cbn [truthy String.eqb negb]. rewrite trim_blank. reflexivity.
Qed.

Lemma token_provided_falsy (v : value) :
  truthy v = false -> token_provided v = Return false.
Proof. unfold token_provided. intros ->. reflexivity. Qed.

(** The headers are built unless the token is a truthy value that is not
    a string. *)
Lemma build_headers_string (t : string) :
  build_headers (VStr t) =
  Return (if whitespace_only t then base_headers
          else app base_headers [("Authorization", "Bearer " ++ t)]).
Proof.
  unfold build_headers. rewrite token_provided_string. simpl.
  destruct (whitespace_only t); reflexivity.
Qed.

Lemma build_headers_falsy (v : value) :
  truthy v = false -> build_headers v = Return base_headers.
Proof.
  intros H. unfold build_headers. rewrite (token_provided_falsy _ H). reflexivity.
Qed.

Lemma build_headers_inv (token : value) (hs : list (string * string)) :
  build_headers token = Return hs ->
  truthy token = false \/ exists t, token = VStr t.
Proof.
  destruct (truthy token) eqn:T; [|left; reflexivity].
  intros H. right. unfold build_headers, token_provided in H. rewrite T in H.
  destruct token; simpl in H; try discriminate. eauto.
Qed.

(** *** formatWebhookPayload *)

(** The payload of a truthy shot, every field read with [get]. *)
Lemma formatWebhookPayload_truthy (shot notes : value) :
  truthy shot = true ->
  exists id timestamp profile profileId duration volume incomplete samples shot_notes,
    get shot "id" = Return id /\
    get shot "timestamp" = Return timestamp /\
    get shot "profile" = Return profile /\
    get shot "profileId" = Return profileId /\
    get shot "duration" = Return duration /\
    get shot "volume" = Return volume /\
    get shot "incomplete" = Return incomplete /\
    get shot "samples" = Return samples /\
    get shot "notes" = Return shot_notes /\
    formatWebhookPayload shot notes =
    Return (VObj
      [ ("id", id); ("timestamp", timestamp); ("profile", profile);
        ("profileId", profileId); ("duration", duration); ("volume", volume);
        ("incomplete", or_else incomplete (VBool false));
        ("samples", or_else samples (VArr []));
        ("notes", or_else (or_else notes shot_notes) VNull) ]).
Proof.
  intros T. unfold formatWebhookPayload. rewrite T. simpl.
  destruct (get_truthy shot "id" T) as [v1 E1].
  destruct (get_truthy shot "timestamp" T) as [v2 E2].
  destruct (get_truthy shot "profile" T) as [v3 E3].
  destruct (get_truthy shot "profileId" T) as [v4 E4].
  destruct (get_truthy shot "duration" T) as [v5 E5].
  destruct (get_truthy shot "volume" T) as [v6 E6].
  destruct (get_truthy shot "incomplete" T) as [v7 E7].
  destruct (get_truthy shot "samples" T) as [v8 E8].
  destruct (get_truthy shot "notes" T) as [v9 E9].
  exists v1, v2, v3, v4, v5, v6, v7, v8, v9.
  rewrite E1, E2, E3, E4, E5, E6, E7, E8, E9. simpl.
  rewrite or_else_default_null.
  repeat split; reflexivity.
Qed.

Lemma formatWebhookPayload_falsy (shot notes : value) :
  truthy shot = false -> formatWebhookPayload shot notes = Throw invalid_shot.
Proof. intros T. unfold formatWebhookPayload. rewrite T. reflexivity. Qed.

(** *** The asynchronous methods *)

Section Runs.

Variable World : Type.
Variable network : request -> World -> outcome response * World.
Variable JSON_parse : string -> option value.
Variable JSON_stringify : value -> string.

Local Abbreviation state := (WebhookService.state World).
Local Abbreviation getWebhookSettings :=
  (WebhookService.getWebhookSettings World network JSON_parse).
Local Abbreviation resolveConfig :=
  (WebhookService.resolveConfig World network JSON_parse).
Local Abbreviation deliver :=
  (WebhookService.deliver World network JSON_parse JSON_stringify).
Local Abbreviation sendWebhook :=
  (WebhookService.sendWebhook World network JSON_parse JSON_stringify).
Local Abbreviation post :=
  (WebhookService.post World network JSON_parse JSON_stringify).
Local Abbreviation post_request := (WebhookService.post_request JSON_stringify).
Local Abbreviation handle_response := (WebhookService.handle_response JSON_parse).
Local Abbreviation json := (WebhookService.json JSON_parse).
Local Abbreviation read_settings := (WebhookService.read_settings JSON_parse).
Local Abbreviation requested := (WebhookService.requested World).
Local Abbreviation logged := (WebhookService.logged World).
Local Abbreviation requests := (WebhookService.requests World).
Local Abbreviation console := (WebhookService.console World).
Local Abbreviation world := (WebhookService.world World).

(** [getWebhookSettings] issues one GET and never throws: any failure is
    logged and answered with the empty settings. *)
Lemma getWebhookSettings_run (st : state) :
  getWebhookSettings st =
  match network settings_request (world st) with
  | (Return r, w) =>
      match read_settings r with
      | Return s => (Return s, requested settings_request w st)
      | Throw e =>
          (Return empty_settings,
           logged "Failed to fetch webhook settings:" e (requested settings_request w st))
      end
  | (Throw e, w) =>
      (Return empty_settings,
       logged "Failed to fetch webhook settings:" e (requested settings_request w st))
  end.
Proof.
  unfold WebhookService.getWebhookSettings, try_catch, bind, fetch, lift, ret,
    console_error, WebhookService.read_settings, and_then, settings_request.
  destruct (network (GET "/api/settings") (world st)) as [[r|e] w]; [|reflexivity].
  destruct (json r) as [parsed|e]; [|reflexivity].
  destruct (get parsed "webhookUrl") as [a|e]; [|reflexivity].
  destruct (get parsed "webhookAuthToken") as [b|e]; reflexivity.
Qed.

Lemma getWebhookSettings_total (st : state) :
  exists s c,
    getWebhookSettings st =
    (Return s,
     mkState World (snd (network settings_request (world st)))
             (requests st ++ [settings_request]) c).
Proof.
  rewrite getWebhookSettings_run.
  destruct (network settings_request (world st)) as [[r|e] w]; simpl.
  - destruct (read_settings r); unfold WebhookService.requested, WebhookService.logged;
      simpl; eauto.
  - unfold WebhookService.requested, WebhookService.logged; simpl; eauto.
Qed.

(** [resolveConfig] with both overrides truthy touches nothing. *)
Lemma resolveConfig_supplied (webhookUrl authToken : value) (st : state) :
  truthy webhookUrl = true -> truthy authToken = true ->
  resolveConfig webhookUrl authToken st = (Return (webhookUrl, authToken), st).
Proof.
  intros Hu Ht. unfold WebhookService.resolveConfig. rewrite Hu, Ht. reflexivity.
Qed.

(** Otherwise the settings are fetched and fill the falsy fields. *)
Lemma resolveConfig_fetched (webhookUrl authToken : value) (st : state) :
  truthy webhookUrl && truthy authToken = false ->
  resolveConfig webhookUrl authToken st =
  match getWebhookSettings st with
  | (Return s, st') =>
      (Return (or_else webhookUrl (url s), or_else authToken (WebhookService.authToken s)), st')
  | (Throw e, st') => (Throw e, st')
  end.
Proof.
  intros H. unfold WebhookService.resolveConfig.
  replace (negb (truthy webhookUrl) || negb (truthy authToken)) with true.
  - unfold bind, ret. destruct (getWebhookSettings st) as [[s|e] st']; reflexivity.
  - rewrite <- negb_andb, H. reflexivity.
Qed.

Lemma default_null_truthy (v : value) : truthy v = true -> default_null v = v.
Proof. destruct v; simpl; congruence. Qed.

Lemma resolveConfig_default_null (webhookUrl authToken : value) (st : state) :
  resolveConfig (default_null webhookUrl) (default_null authToken) st =
  resolveConfig webhookUrl authToken st.
Proof.
  unfold WebhookService.resolveConfig. rewrite !truthy_default_null.
  destruct (truthy webhookUrl) eqn:Hu; destruct (truthy authToken) eqn:Ht; simpl;
    try (unfold bind, ret;
         destruct (getWebhookSettings st) as [[s|e] st1]; [|reflexivity];
         rewrite !or_else_default_null; reflexivity).
  rewrite (default_null_truthy _ Hu), (default_null_truthy _ Ht). reflexivity.
Qed.

(** The requests [resolveConfig] adds: none, or the one for the settings;
    and it never throws. *)
Lemma resolveConfig_total (webhookUrl authToken : value) (st : state) :
  exists cfg st1,
    resolveConfig webhookUrl authToken st = (Return cfg, st1) /\
    (requests st1 = requests st \/
     requests st1 = (requests st ++ [settings_request])%list).
Proof.
  destruct (truthy webhookUrl && truthy authToken) eqn:B.
  - apply andb_true_iff in B. destruct B as [Hu Ht].
    rewrite (resolveConfig_supplied _ _ _ Hu Ht). eauto.
  - rewrite (resolveConfig_fetched _ _ _ B).
    destruct (getWebhookSettings_total st) as (s & c & E). rewrite E.
    do 2 eexists. split; [reflexivity|]. right. reflexivity.
Qed.

(** The [try] block: the request is recorded whatever its end. *)
Lemma post_run (url : value) (headers : list (string * string)) (payload : value)
  (st : state) :
  post url headers payload st =
  match network (post_request url headers payload) (world st) with
  | (Return r, w) => (handle_response r, requested (post_request url headers payload) w st)
  | (Throw e, w) => (Throw e, requested (post_request url headers payload) w st)
  end.
Proof.
  unfold WebhookService.post, bind, fetch, lift, WebhookService.requested.
  destruct (network (post_request url headers payload) (world st)) as [[r|e] w];
    reflexivity.
Qed.

(** [deliver], stage by stage. *)
Lemma deliver_run (shot notes url token : value) (st : state) :
  deliver shot notes url token st =
  match missing_or_blank url with
  | Throw e => (Throw e, st)
  | Return true => (Throw not_configured_error, st)
  | Return false =>
      match formatWebhookPayload shot notes with
      | Throw e => (Throw e, st)
      | Return payload =>
          match build_headers token with
          | Throw e => (Throw e, st)
          | Return headers =>
              let req := post_request url headers payload in
              match network req (world st) with
              | (Return r, w) => (caught (handle_response r), requested req w st)
              | (Throw e, w) => (Throw (rethrow e), requested req w st)
              end
          end
      end
  end.
Proof.
  unfold WebhookService.deliver, bind, lift, throw, try_catch.
  destruct (missing_or_blank url) as [[|]|e]; try reflexivity.
  destruct (formatWebhookPayload shot notes) as [payload|e]; try reflexivity.
  destruct (build_headers token) as [headers|e]; try reflexivity.
  rewrite post_run. cbv zeta.
  destruct (network (post_request url headers payload) (world st)) as [[r|e] w];
    [|reflexivity].
  destruct (handle_response r); reflexivity.
Qed.

Lemma formatWebhookPayload_default_null (shot notes : value) :
  formatWebhookPayload shot (default_null notes) = formatWebhookPayload shot notes.
Proof.
  unfold formatWebhookPayload.
  replace (default_null (default_null notes)) with (default_null notes)
    by (destruct notes; reflexivity).
  reflexivity.
Qed.

(** [sendWebhook]: the configuration is resolved, then delivered. *)
Lemma sendWebhook_run (shot notes webhookUrl authToken : value) (st : state) :
  sendWebhook shot notes webhookUrl authToken st =
  match resolveConfig webhookUrl authToken st with
  | (Return cfg, st1) => deliver shot notes (fst cfg) (snd cfg) st1
  | (Throw e, st1) => (Throw e, st1)
  end.
Proof.
  unfold WebhookService.sendWebhook, bind.
  rewrite resolveConfig_default_null.
  destruct (resolveConfig webhookUrl authToken st) as [[cfg|e] st1]; [|reflexivity].
  rewrite !deliver_run, formatWebhookPayload_default_null. reflexivity.
Qed.

(** The errors [sendWebhook] makes itself are plain [Error]s, which the
    [catch] clause passes on unchanged. *)
Lemma rethrow_Error (msg : string) : rethrow (Error msg) = Error msg.
Proof. reflexivity. Qed.

Lemma rethrow_TypeError (msg : string) : rethrow (TypeError msg) = network_error.
Proof. reflexivity. Qed.

(** *** Sends that reach the request *)

Lemma resolveConfig_requests (webhookUrl authToken : value) (st st1 : state)
  (cfg : value * value) :
  resolveConfig webhookUrl authToken st = (Return cfg, st1) ->
  requests st1 = requests st \/
  requests st1 = (requests st ++ [settings_request])%list.
Proof.
  intros R.
  destruct (resolveConfig_total webhookUrl authToken st) as (cfg' & st1' & E & H).
  rewrite R in E. injection E as _ <-. exact H.
Qed.

(** A POST among the requests of a send is the one [deliver] makes: the
    URL is a string that is not blank, the payload and the headers were
    built. *)
Lemma sendWebhook_posts (shot notes webhookUrl authToken url token : value)
  (st st1 st' : state) (result : outcome value) (new : list request) (req : request) :
  resolveConfig webhookUrl authToken st = (Return (url, token), st1) ->
  sendWebhook shot notes webhookUrl authToken st = (result, st') ->
  requests st' = (requests st ++ new)%list ->
  In req new ->
  req_method req = "POST" ->
  exists u payload headers,
    url = VStr u /\ whitespace_only u = false /\
    formatWebhookPayload shot notes = Return payload /\
    build_headers token = Return headers /\
    req = post_request (VStr u) headers payload.
Proof.
  intros R S Hnew Hin Hpost.
  assert (Hget : forall l, requests st' = requests st1 -> In req l ->
                 requests st1 = requests st \/
                 requests st1 = (requests st ++ [settings_request])%list ->
                 l = new -> False).
  { intros l E1 Hl [E|E] ->; rewrite E1, E in Hnew.
    - rewrite <- (app_nil_r (requests st)) in Hnew at 1.
      apply app_inv_head in Hnew. subst new. destruct Hl.
    - apply app_inv_head in Hnew. subst new.
      destruct Hl as [<-|[]]. discriminate Hpost. }
  pose proof (resolveConfig_requests _ _ _ _ _ R) as Hst1.
  rewrite sendWebhook_run, R in S. simpl fst in S. simpl snd in S.
  rewrite deliver_run in S.
  destruct (missing_or_blank url) as [[|]|e] eqn:B;
    try (injection S as _ <-; exfalso; eapply Hget; eauto; fail).
  destruct (missing_or_blank_false url B) as (u & -> & W).
  destruct (formatWebhookPayload shot notes) as [payload|e] eqn:F;
    try (injection S as _ <-; exfalso; eapply Hget; eauto; fail).
  destruct (build_headers token) as [headers|e] eqn:Hd;
    try (injection S as _ <-; exfalso; eapply Hget; eauto; fail).
  exists u, payload, headers. repeat (split; [reflexivity || assumption|]).
  cbv zeta in S.
  assert (Hreq : requests st' =
                 (requests st1 ++ [post_request (VStr u) headers payload])%list).
  { destruct (network (post_request (VStr u) headers payload) (world st1))
      as [[r|e] w]; injection S as _ <-; reflexivity. }
  rewrite Hreq in Hnew.
  destruct Hst1 as [E|E]; rewrite E in Hnew.
  - apply app_inv_head in Hnew. subst new. destruct Hin as [<-|[]]. reflexivity.
  - rewrite <- app_assoc in Hnew. apply app_inv_head in Hnew. subst new.
    destruct Hin as [<-|[<-|[]]]; [discriminate Hpost | reflexivity].
Qed.

(** The ['Authorization'] property of the headers built for a token. *)
Lemma build_headers_authorization (token : value) (headers : list (string * string)) :
  build_headers token = Return headers ->
  header "Content-Type" headers = Some "application/json" /\
  header "Accept" headers = Some "application/json" /\
  header "User-Agent" headers = Some "GaggiMate-WebUI/1.0" /\
  header "Authorization" headers =
  match token with
  | VStr t => if whitespace_only t then None else Some ("Bearer " ++ t)
  | _ => None
  end.
Proof.
  intros H. destruct (build_headers_inv token headers H) as [T|[t ->]].
  - rewrite (build_headers_falsy token T) in H. injection H as <-.
    repeat split; try reflexivity.
    destruct token; try reflexivity.
    destruct s; [reflexivity | discriminate T].
  - rewrite build_headers_string in H. injection H as <-.
    destruct (whitespace_only t); repeat split; reflexivity.
Qed.

(** The reply to the POST of a send whose URL is a string that is not
    blank, whose payload and whose headers were built. *)
Lemma sendWebhook_reply (shot notes webhookUrl authToken token payload : value)
  (u : string) (headers : list (string * string)) (st st1 : state) :
  resolveConfig webhookUrl authToken st = (Return (VStr u, token), st1) ->
  whitespace_only u = false ->
  formatWebhookPayload shot notes = Return payload ->
  build_headers token = Return headers ->
  sendWebhook shot notes webhookUrl authToken st =
  match network (post_request (VStr u) headers payload) (world st1) with
  | (Return r, w) =>
      (caught (handle_response r),
       requested (post_request (VStr u) headers payload) w st1)
  | (Throw e, w) =>
      (Throw (rethrow e), requested (post_request (VStr u) headers payload) w st1)
  end.
Proof.
  intros R W F H.
  rewrite sendWebhook_run, R. simpl fst. simpl snd.
  rewrite deliver_run, missing_or_blank_string, W, F, H. reflexivity.
Qed.

(** [handle_response] on a response whose body was received. *)
Lemma handle_response_received (r : response) (txt : string) :
  body r = Return txt ->
  handle_response r =
  if negb (ok r) then
    if (status r =? 401)%N || (status r =? 403)%N then Throw auth_failed
    else if (status r =? 422)%N then Throw validation_failed
    else Throw (http_error (status r) txt)
  else if is_json (content_type r) then
    match JSON_parse txt with
    | Some v => Return v
    | None => Throw (SyntaxError "Unexpected token in JSON")
    end
  else
    Return (VObj [ ("success", VBool true);
                   ("status", VNum (number_of_status (status r))) ]).
Proof.
  intros B. unfold WebhookService.handle_response, text, WebhookService.json.
  rewrite B. reflexivity.
Qed.

(** *** The claims on sendWebhook *)

(** C3: when the resolved URL is empty or made of white space only,
    [sendWebhook] throws the not-configured error, whatever the shot, the
    notes and the token are.  The state it leaves is the one the
    resolution left: the payload was not built and nothing was posted, so
    a null shot gets this error and not the invalid-shot error. *)
Theorem C3_unconfigured_url (shot notes webhookUrl authToken token : value)
  (u : string) (st st1 : state) :
  resolveConfig webhookUrl authToken st = (Return (VStr u, token), st1) ->
  whitespace_only u = true ->
  sendWebhook shot notes webhookUrl authToken st = (Throw not_configured_error, st1) /\
  not_configured_error <> invalid_shot.
Proof.
  intros R W. split.
  - rewrite sendWebhook_run, R. simpl fst. simpl snd.
    rewrite deliver_run, missing_or_blank_string, W. reflexivity.
  - discriminate.
Qed.

(** The part of C4 the code keeps: a response to the POST whose body was
    received is classified by its status and content type.  401 and 403
    throw the authentication error, 422 the validation error, any other
    status outside 200..299 the HTTP error made of the status and the
    body text; a status in 200..299 with a content type that includes
    [application/json] returns the parsed body when the body parses as
    JSON; a status in 200..299 with another or no content type returns
    [{ success: true, status }]. *)
Theorem C4_response_classification
  (shot notes webhookUrl authToken token payload : value) (u : string)
  (headers : list (string * string)) (st st1 : state)
  (r : response) (w : World) (txt : string) :
  resolveConfig webhookUrl authToken st = (Return (VStr u, token), st1) ->
  whitespace_only u = false ->
  formatWebhookPayload shot notes = Return payload ->
  build_headers token = Return headers ->
  network (post_request (VStr u) headers payload) (world st1) = (Return r, w) ->
  body r = Return txt ->
  exists result,
    sendWebhook shot notes webhookUrl authToken st =
    (result, requested (post_request (VStr u) headers payload) w st1) /\
    (status r = 401%N \/ status r = 403%N -> result = Throw auth_failed) /\
    (status r = 422%N -> result = Throw validation_failed) /\
    (ok r = false -> status r <> 401%N -> status r <> 403%N -> status r <> 422%N ->
     result = Throw (http_error (status r) txt)) /\
    (ok r = true -> is_json (content_type r) = true ->
     forall v, JSON_parse txt = Some v -> result = Return v) /\
    (ok r = true -> is_json (content_type r) = false ->
     result = Return (VObj [ ("success", VBool true);
                             ("status", VNum (number_of_status (status r))) ])).
Proof.
  intros R W F H N B.
  rewrite (sendWebhook_reply _ _ _ _ _ _ _ _ _ _ R W F H), N.
  rewrite (handle_response_received r txt B).
  eexists. split; [reflexivity|].
  unfold ok. repeat split.
  - intros [E|E]; rewrite E; reflexivity.
  - intros E. rewrite E. reflexivity.
  - intros O N1 N3 N2. rewrite O. simpl.
    apply N.eqb_neq in N1, N3, N2. rewrite N1, N3, N2. reflexivity.
  - intros O J v P. rewrite O, J, P. reflexivity.
  - intros O J. rewrite O, J. reflexivity.
Qed.

(** C5, as the code has it.  An override counts as supplied when it is
    truthy.  [resolveConfig] never throws.  With both overrides supplied
    it returns them untouched and asks nothing.  Otherwise it asks the
    settings source once and fills each field that was not supplied from
    the fetched settings, a supplied override staying as it is.  When the
    settings source cannot be reached or read, the fetched settings are
    the empty ones, so that each field keeps its override or becomes the
    empty string. *)
Theorem C5_resolveConfig (webhookUrl authToken : value) (st : state) :
  exists cfg st1,
    resolveConfig webhookUrl authToken st = (Return cfg, st1) /\
    (truthy webhookUrl = true -> fst cfg = webhookUrl) /\
    (truthy authToken = true -> snd cfg = authToken) /\
    (truthy webhookUrl = true -> truthy authToken = true -> st1 = st) /\
    (truthy webhookUrl && truthy authToken = false ->
     exists s,
       getWebhookSettings st = (Return s, st1) /\
       cfg = (or_else webhookUrl (url s), or_else authToken (WebhookService.authToken s)) /\
       requests st1 = (requests st ++ [settings_request])%list /\
       (forall r w s', network settings_request (world st) = (Return r, w) ->
                       read_settings r = Return s' -> s = s') /\
       (forall r w e, network settings_request (world st) = (Return r, w) ->
                      read_settings r = Throw e -> s = empty_settings) /\
       (forall e w, network settings_request (world st) = (Throw e, w) ->
                    s = empty_settings)).
Proof.
  destruct (truthy webhookUrl && truthy authToken) eqn:B.
  - apply andb_true_iff in B. destruct B as [Hu Ht].
    exists (webhookUrl, authToken), st.
    rewrite (resolveConfig_supplied _ _ _ Hu Ht).
    repeat split; try reflexivity. discriminate.
  - rewrite (resolveConfig_fetched _ _ _ B).
    destruct (getWebhookSettings st) as [[s|e] st1] eqn:G.
    + exists (or_else webhookUrl (url s), or_else authToken (WebhookService.authToken s)), st1.
      split; [reflexivity|].
      split; [intros T; unfold or_else; simpl; rewrite T; reflexivity|].
      split; [intros T; unfold or_else; simpl; rewrite T; reflexivity|].
      split; [intros Hu Ht; rewrite Hu, Ht in B; discriminate|].
      intros _. exists s. split; [reflexivity|]. split; [reflexivity|].
      rewrite getWebhookSettings_run in G.
      destruct (network settings_request (world st)) as [[r|e] w].
      * destruct (read_settings r) as [s0|e] eqn:RS; injection G as <- <-;
          (split; [reflexivity|]); repeat split; intros; congruence.
      * injection G as <- <-. split; [reflexivity|]. repeat split; intros; congruence.
    + destruct (getWebhookSettings_total st) as (s & c & E). congruence.
Qed.

(** C6: [sendWebhook] holds no test on the shape of the URL.  For every
    resolved URL that is a string with something else than white space,
    whatever [validateWebhookUrl] would answer for it, the send fails
    before the request only when the payload or the headers cannot be
    built; otherwise the POST to that URL is handed to the network, and
    the end of the send is the end of that request. *)
Theorem C6_no_url_validation (shot notes webhookUrl authToken token : value)
  (u : string) (st st1 : state) :
  resolveConfig webhookUrl authToken st = (Return (VStr u, token), st1) ->
  whitespace_only u = false ->
  sendWebhook shot notes webhookUrl authToken st =
  match formatWebhookPayload shot notes with
  | Throw e => (Throw e, st1)
  | Return payload =>
      match build_headers token with
      | Throw e => (Throw e, st1)
      | Return headers =>
          let req := mkRequest u "POST" headers (Some (JSON_stringify payload)) in
          match network req (world st1) with
          | (Return r, w) => (caught (handle_response r), requested req w st1)
          | (Throw e, w) => (Throw (rethrow e), requested req w st1)
          end
      end
  end.
Proof.
  intros R W.
  destruct (formatWebhookPayload shot notes) as [payload|e] eqn:F.
  - destruct (build_headers token) as [headers|e] eqn:H.
    + apply (sendWebhook_reply _ _ _ _ _ _ _ _ _ _ R W F H).
    + rewrite sendWebhook_run, R. simpl fst. simpl snd.
      rewrite deliver_run, missing_or_blank_string, W, F, H. reflexivity.
  - rewrite sendWebhook_run, R. simpl fst. simpl snd.
    rewrite deliver_run, missing_or_blank_string, W, F. reflexivity.
Qed.

(** C8: every POST a send hands to the network carries the headers
    [Content-Type: application/json], [Accept: application/json] and
    [User-Agent: GaggiMate-WebUI/1.0]; it carries [Authorization] exactly
    when the resolved token is a string with something else than white
    space, and then with the value [Bearer ] followed by the token. *)
Theorem C8_request_headers (shot notes webhookUrl authToken url token : value)
  (st st1 st' : state) (result : outcome value) (new : list request) (req : request) :
  resolveConfig webhookUrl authToken st = (Return (url, token), st1) ->
  sendWebhook shot notes webhookUrl authToken st = (result, st') ->
  requests st' = (requests st ++ new)%list ->
  In req new ->
  req_method req = "POST" ->
  header "Content-Type" (req_headers req) = Some "application/json" /\
  header "Accept" (req_headers req) = Some "application/json" /\
  header "User-Agent" (req_headers req) = Some "GaggiMate-WebUI/1.0" /\
  header "Authorization" (req_headers req) =
  match token with
  | VStr t => if whitespace_only t then None else Some ("Bearer " ++ t)
  | _ => None
  end.
Proof.
  intros R S Hnew Hin Hpost.
  destruct (sendWebhook_posts _ _ _ _ _ _ _ _ _ _ _ _ R S Hnew Hin Hpost)
    as (u & payload & headers & _ & _ & _ & H & ->).
  simpl req_headers. exact (build_headers_authorization token headers H).
Qed.

(** C9: when the POST is never answered, the promise of [fetch] being
    rejected with a [TypeError], the send throws the network error.  When
    the POST is answered with a status outside 200..299 and the body is
    received, the send throws the authentication, the validation or the
    HTTP error, and none of these is the network error. *)
Theorem C9_network_error (shot notes webhookUrl authToken token payload : value)
  (u : string) (headers : list (string * string)) (st st1 : state) :
  resolveConfig webhookUrl authToken st = (Return (VStr u, token), st1) ->
  whitespace_only u = false ->
  formatWebhookPayload shot notes = Return payload ->
  build_headers token = Return headers ->
  (forall msg w,
     network (post_request (VStr u) headers payload) (world st1)
     = (Throw (TypeError msg), w) ->
     sendWebhook shot notes webhookUrl authToken st =
     (Throw network_error, requested (post_request (VStr u) headers payload) w st1)) /\
  (forall r w txt,
     network (post_request (VStr u) headers payload) (world st1) = (Return r, w) ->
     body r = Return txt ->
     ok r = false ->
     exists e,
       sendWebhook shot notes webhookUrl authToken st =
       (Throw e, requested (post_request (VStr u) headers payload) w st1) /\
       (e = auth_failed \/ e = validation_failed \/ e = http_error (status r) txt) /\
       e <> network_error).
Proof.
  intros R W F H. split.
  - intros msg w N.
    rewrite (sendWebhook_reply _ _ _ _ _ _ _ _ _ _ R W F H), N. reflexivity.
  - intros r w txt N B O.
    rewrite (sendWebhook_reply _ _ _ _ _ _ _ _ _ _ R W F H), N.
    rewrite (handle_response_received r txt B), O. simpl negb. cbv iota.
    destruct ((status r =? 401)%N || (status r =? 403)%N).
    + exists auth_failed. repeat split; [tauto | discriminate].
    + destruct (status r =? 422)%N.
      * exists validation_failed. repeat split; [tauto | discriminate].
      * exists (http_error (status r) txt). repeat split; [tauto | discriminate].
Qed.

(** C10: when the resolved token is a string with something else than
    white space, the [Authorization] header of the POST is [Bearer ]
    followed by the token as it is; when trimming would change the token,
    the header differs from the one the trimmed token would give. *)
Theorem C10_token_verbatim (shot notes webhookUrl authToken url : value) (t : string)
  (st st1 st' : state) (result : outcome value) (new : list request) (req : request) :
  resolveConfig webhookUrl authToken st = (Return (url, VStr t), st1) ->
  whitespace_only t = false ->
  sendWebhook shot notes webhookUrl authToken st = (result, st') ->
  requests st' = (requests st ++ new)%list ->
  In req new ->
  req_method req = "POST" ->
  header "Authorization" (req_headers req) = Some ("Bearer " ++ t) /\
  (trim t <> t ->
   header "Authorization" (req_headers req) <> Some ("Bearer " ++ trim t)).
Proof.
  intros R W S Hnew Hin Hpost.
  destruct (sendWebhook_posts _ _ _ _ _ _ _ _ _ _ _ _ R S Hnew Hin Hpost)
    as (u & payload & headers & _ & _ & _ & H & ->).
  simpl req_headers.
  destruct (build_headers_authorization (VStr t) headers H) as (_ & _ & _ & A).
  rewrite W in A. rewrite A. split; [reflexivity|].
  intros D E. apply D. simpl in E. injection E as E. symmetry. exact E.
Qed.

End Runs.

(** *** The payload *)

(** C1, as the code has it: the payload of a present shot takes its notes
    from the override when the override is truthy, else from the shot's own
    notes when these are truthy, else it holds [null].  An override that is
    [undefined], [null], [''], [0], [NaN] or [false] counts as not given. *)
Theorem C1_notes_preference (shot notes : value) :
  truthy shot = true ->
  exists payload shot_notes,
    formatWebhookPayload shot notes = Return payload /\
    get shot "notes" = Return shot_notes /\
    get payload "notes" =
    Return (if truthy notes then notes
            else if truthy shot_notes then shot_notes
            else VNull).
Proof.
  intros T.
  destruct (formatWebhookPayload_truthy shot notes T)
    as (v1 & v2 & v3 & v4 & v5 & v6 & v7 & v8 & v9 & _ & _ & _ & _ & _ & _ & _ & _ & E9 & E).
  exists (VObj
      [ ("id", v1); ("timestamp", v2); ("profile", v3);
        ("profileId", v4); ("duration", v5); ("volume", v6);
        ("incomplete", or_else v7 (VBool false));
        ("samples", or_else v8 (VArr []));
        ("notes", or_else (or_else notes v9) VNull) ]), v9.
  split; [exact E|]. split; [exact E9|].
  simpl. unfold or_else.
  destruct (truthy notes) eqn:Tn.
  - rewrite Tn. reflexivity.
  - destruct (truthy v9); reflexivity.
Qed.

Lemma C1_notes_preference_witness :
  truthy Scenario.shot = true /\
  exists payload shot_notes,
    formatWebhookPayload Scenario.shot (VObj [("rating", VNum 4%float)]) = Return payload /\
    get Scenario.shot "notes" = Return shot_notes /\
    get payload "notes" =
    Return (if truthy (VObj [("rating", VNum 4%float)])
            then VObj [("rating", VNum 4%float)]
            else if truthy shot_notes then shot_notes
            else VNull).
Proof.
  split; [reflexivity|].
  apply (C1_notes_preference Scenario.shot (VObj [("rating", VNum 4%float)])).
  reflexivity.
Defined.

(** C1, as the claim words it, fails for an override that is given and not
    null but falsy: with the empty string as override the payload carries
    the shot's own notes, not the override. *)
Lemma C1_empty_override_ignored :
  nullish Scenario.shot = false /\
  nullish (VStr "") = false /\
  exists payload,
    formatWebhookPayload Scenario.shot (VStr "") = Return payload /\
    get payload "notes" = Return (VStr "old") /\
    get payload "notes" <> Return (VStr "").
Proof.
  split; [reflexivity|]. split; [reflexivity|].
  eexists. split; [reflexivity|]. split; [reflexivity|].
  simpl. discriminate.
Qed.

(** C2: a shot reference is absent ([undefined]), [null], or a record.  On
    such a reference [formatWebhookPayload] throws its invalid-input error
    exactly when the reference is absent or null, and for a record it
    returns a payload whichever of its fields are missing. *)
Theorem C2_invalid_input (shot notes : value) :
  nullish shot = true \/ (exists props, shot = VObj props) ->
  (formatWebhookPayload shot notes = Throw invalid_shot <-> nullish shot = true) /\
  (nullish shot = false -> exists payload, formatWebhookPayload shot notes = Return payload).
Proof.
  intros [N | [props ->]].
  - assert (T : truthy shot = false) by (destruct shot; simpl in *; congruence).
    rewrite (formatWebhookPayload_falsy shot notes T). split.
    + tauto.
    + congruence.
  - destruct (formatWebhookPayload_truthy (VObj props) notes eq_refl)
      as (v1 & v2 & v3 & v4 & v5 & v6 & v7 & v8 & v9 & _ & _ & _ & _ & _ & _ & _ & _ & _ & E).
    rewrite E. split.
    + split; discriminate.
    + eauto.
Qed.

Lemma C2_invalid_input_witness :
  (nullish (VObj []) = true \/ (exists props, VObj [] = VObj props)) /\
  (formatWebhookPayload (VObj []) VNull = Throw invalid_shot <-> nullish (VObj []) = true) /\
  (nullish (VObj []) = false ->
   exists payload, formatWebhookPayload (VObj []) VNull = Return payload).
Proof.
  split; [right; exists []; reflexivity|].
  apply (C2_invalid_input (VObj []) VNull).
  right. exists []. reflexivity.
Defined.

(** *** validateWebhookUrl *)

Section Validation.

Variable URL_parse : string -> option URL.

Local Abbreviation validateWebhookUrl := (WebhookService.validateWebhookUrl URL_parse).

Lemma validateWebhookUrl_string (s : string) :
  validateWebhookUrl (VStr s) =
  Return (if whitespace_only s then false
          else match URL_parse s with
               | Some parsed => (protocol parsed =? "http:") || (protocol parsed =? "https:")
               | None => false
               end).
Proof.
  unfold WebhookService.validateWebhookUrl. rewrite missing_or_blank_string. simpl.
  destruct (whitespace_only s); [reflexivity|].
  destruct (URL_parse s); reflexivity.
Qed.

(** C7: with a parser that rejects white space, finds the scheme [ftp] in
    [ftp://x] and the scheme [https] in [https://example.com/hook]:
    [validateWebhookUrl] answers false for a missing, empty or white-space
    input and for an input that does not parse, and answers true exactly
    for the inputs that parse with protocol [http:] or [https:]. *)
Theorem C7_validateWebhookUrl :
  (forall s, whitespace_only s = true -> URL_parse s = None) ->
  URL_parse "ftp://x" = Some (mkURL "ftp:") ->
  URL_parse "https://example.com/hook" = Some (mkURL "https:") ->
  (forall v, truthy v = false -> validateWebhookUrl v = Return false) /\
  (forall s, whitespace_only s = true -> validateWebhookUrl (VStr s) = Return false) /\
  (forall s, URL_parse s = None -> validateWebhookUrl (VStr s) = Return false) /\
  (forall s, validateWebhookUrl (VStr s) = Return true <->
             exists parsed, URL_parse s = Some parsed /\
                            (protocol parsed = "http:" \/ protocol parsed = "https:")) /\
  validateWebhookUrl (VStr "") = Return false /\
  validateWebhookUrl (VStr "   ") = Return false /\
  validateWebhookUrl (VStr "ftp://x") = Return false /\
  validateWebhookUrl (VStr "https://example.com/hook") = Return true.
Proof.
  intros Hblank Hftp Hhttps.
  split; [|split; [|split; [|split]]].
  - intros v T. unfold WebhookService.validateWebhookUrl.
    rewrite (missing_or_blank_falsy v T). reflexivity.
  - intros s W. rewrite validateWebhookUrl_string, W. reflexivity.
  - intros s P. rewrite validateWebhookUrl_string, P.
    destruct (whitespace_only s); reflexivity.
  - intros s. rewrite validateWebhookUrl_string. split.
    + destruct (whitespace_only s) eqn:W; [discriminate|].
      destruct (URL_parse s) as [parsed|]; [|discriminate].
      intros H. exists parsed. split; [reflexivity|].
      injection H as H. apply orb_true_iff in H.
      destruct H as [H|H]; apply String.eqb_eq in H; tauto.
    + intros (parsed & P & H).
      destruct (whitespace_only s) eqn:W.
      * rewrite (Hblank s W) in P. discriminate.
      * rewrite P. f_equal. apply orb_true_iff.
        destruct H as [H|H]; rewrite H; [left|right]; reflexivity.
  - rewrite !validateWebhookUrl_string, Hftp, Hhttps. repeat split; reflexivity.
Qed.

End Validation.

Lemma scenario_URL_parse_blank (s : string) :
  whitespace_only s = true -> Scenario.URL_parse s = None.
Proof.
  destruct s as [|c rest]; [reflexivity|].
  simpl. intros H. apply andb_true_iff in H. destruct H as [H _].
  replace (Scenario.is_alpha c) with false; [reflexivity|].
  revert H. destruct c as [[] [] [] [] [] [] [] []]; vm_compute; congruence.
Qed.

Lemma C7_validateWebhookUrl_witness :
  Scenario.URL_parse "ftp://x" = Some (mkURL "ftp:") /\
  Scenario.URL_parse "https://example.com/hook" = Some (mkURL "https:") /\
  Scenario.validateWebhookUrl (VStr "   ") = Return false /\
  Scenario.validateWebhookUrl (VStr "ftp://x") = Return false /\
  Scenario.validateWebhookUrl (VStr "https://example.com/hook") = Return true.
Proof.
  split; [reflexivity|]. split; [reflexivity|].
  apply (C7_validateWebhookUrl Scenario.URL_parse scenario_URL_parse_blank
           eq_refl eq_refl).
Defined.

(** *** The claims on sendWebhook, run on the concrete platform *)

(** Shorthand for the theorems of the section at the concrete platform. *)
Local Abbreviation at_scenario thm :=
  (thm Scenario.World Scenario.network Scenario.JSON_parse Scenario.JSON_stringify).

Lemma C3_unconfigured_url_witness :
  whitespace_only "   " = true /\
  Scenario.sendWebhook VNull VNull (VStr "   ") Scenario.secret (Scenario.start [])
  = (Throw not_configured_error, Scenario.start []) /\
  not_configured_error <> invalid_shot.
Proof.
  split; [reflexivity|].
  apply (at_scenario C3_unconfigured_url VNull VNull (VStr "   ") Scenario.secret
           Scenario.secret "   " (Scenario.start []) (Scenario.start [])).
  - reflexivity.
  - reflexivity.
Defined.

Lemma C4_response_classification_witness :
  exists result,
    Scenario.send_to Scenario.hook [Return (Scenario.reply 500 None "boom")]
    = (result,
       requested Scenario.World (Scenario.posted Scenario.hook Scenario.secret_headers)
                 [] (Scenario.start [Return (Scenario.reply 500 None "boom")])) /\
    (500%N = 401%N \/ 500%N = 403%N -> result = Throw auth_failed) /\
    (500%N = 422%N -> result = Throw validation_failed) /\
    (ok (Scenario.reply 500 None "boom") = false ->
     500%N <> 401%N -> 500%N <> 403%N -> 500%N <> 422%N ->
     result = Throw (http_error 500 "boom")) /\
    (ok (Scenario.reply 500 None "boom") = true -> is_json None = true ->
     forall v, Scenario.JSON_parse "boom" = Some v -> result = Return v) /\
    (ok (Scenario.reply 500 None "boom") = true -> is_json None = false ->
     result = Return (VObj [ ("success", VBool true);
                             ("status", VNum (number_of_status 500)) ])).
Proof.
  apply (at_scenario C4_response_classification
           Scenario.shot VNull (VStr Scenario.hook) Scenario.secret Scenario.secret
           Scenario.payload Scenario.hook Scenario.secret_headers
           (Scenario.start [Return (Scenario.reply 500 None "boom")])
           (Scenario.start [Return (Scenario.reply 500 None "boom")])
           (Scenario.reply 500 None "boom") [] "boom");
    reflexivity.
Defined.

(** C4, a defect of the code.  The claim has every answer with a status
    in 200..299 and a JSON content type resolve, and the comment on line
    114 says the same of the code: "Try to parse JSON response, but don't
    fail if it's not JSON".  The code tests the content type only.  For
    an answer with status 200 and content type [application/json] whose
    body is not JSON, here the empty body, [response.json()] throws, the
    [catch] clause passes the [SyntaxError] on since its name is not
    [TypeError], and the send fails instead of resolving. *)
Lemma C4_unparsable_body_rejected :
  ok (Scenario.reply 200 (Some "application/json") "") = true /\
  is_json (content_type (Scenario.reply 200 (Some "application/json") "")) = true /\
  fst (Scenario.send_to Scenario.hook
         [Return (Scenario.reply 200 (Some "application/json") "")])
  = Throw (SyntaxError "Unexpected token in JSON") /\
  forall v,
    fst (Scenario.send_to Scenario.hook
           [Return (Scenario.reply 200 (Some "application/json") "")])
    <> Return v.
Proof.
  split; [reflexivity|]. split; [reflexivity|]. split; [reflexivity|].
  intros v. vm_compute. discriminate.
Qed.

(** C5, as the claim words it, fails when one override is supplied and
    the settings source cannot be reached: the configuration returned
    keeps the supplied URL, it is not the empty configuration. *)
Lemma C5_override_survives_failure :
  Scenario.network settings_request [] = (Throw Scenario.failed_to_fetch, []) /\
  fst (Scenario.resolveConfig (VStr Scenario.hook) VNull (Scenario.start []))
  = Return (VStr Scenario.hook, VStr "") /\
  fst (Scenario.resolveConfig (VStr Scenario.hook) VNull (Scenario.start []))
  <> Return (VStr "", VStr "").
Proof.
  split; [reflexivity|]. split; [reflexivity|].
  vm_compute. discriminate.
Qed.

Lemma C6_no_url_validation_witness :
  Scenario.validateWebhookUrl (VStr "ftp://x") = Return false /\
  whitespace_only "ftp://x" = false /\
  Scenario.send_to "ftp://x" [Return (Scenario.reply 200 None "")]
  = (Return (VObj [ ("success", VBool true); ("status", VNum (number_of_status 200)) ]),
     mkState Scenario.World []
             [mkRequest "ftp://x" "POST" Scenario.secret_headers (Some "{}")] []).
Proof.
  split; [reflexivity|]. split; [reflexivity|].
  unfold Scenario.send_to, Scenario.sendWebhook.
  rewrite (at_scenario C6_no_url_validation
             Scenario.shot VNull (VStr "ftp://x") Scenario.secret Scenario.secret
             "ftp://x" (Scenario.start [Return (Scenario.reply 200 None "")])
             (Scenario.start [Return (Scenario.reply 200 None "")])
             eq_refl eq_refl).
  reflexivity.
Defined.

Lemma C8_request_headers_witness :
  header "Content-Type" (req_headers (Scenario.posted Scenario.hook base_headers))
  = Some "application/json" /\
  header "Accept" (req_headers (Scenario.posted Scenario.hook base_headers))
  = Some "application/json" /\
  header "User-Agent" (req_headers (Scenario.posted Scenario.hook base_headers))
  = Some "GaggiMate-WebUI/1.0" /\
  header "Authorization" (req_headers (Scenario.posted Scenario.hook base_headers))
  = None.
Proof.
  refine (at_scenario C8_request_headers
            Scenario.shot VNull (VStr Scenario.hook) (VStr "   ")
            (VStr Scenario.hook) (VStr "   ")
            (Scenario.start [Return (Scenario.reply 200 None "")])
            (Scenario.start [Return (Scenario.reply 200 None "")])
            (mkState Scenario.World [] [Scenario.posted Scenario.hook base_headers] [])
            (Return (VObj [ ("success", VBool true);
                            ("status", VNum (number_of_status 200)) ]))
            [Scenario.posted Scenario.hook base_headers]
            (Scenario.posted Scenario.hook base_headers) _ _ _ _ _).
  - reflexivity.
  - reflexivity.
  - reflexivity.
  - left. reflexivity.
  - reflexivity.
Defined.

Lemma C9_network_error_witness :
  Scenario.network (Scenario.posted Scenario.hook Scenario.secret_headers) []
  = (Throw (TypeError "Failed to fetch"), []) /\
  Scenario.send_to Scenario.hook []
  = (Throw network_error,
     mkState Scenario.World []
             [Scenario.posted Scenario.hook Scenario.secret_headers] []).
Proof.
  split; [reflexivity|].
  refine (proj1 (at_scenario C9_network_error
                   Scenario.shot VNull (VStr Scenario.hook) Scenario.secret Scenario.secret
                   Scenario.payload Scenario.hook Scenario.secret_headers
                   (Scenario.start []) (Scenario.start []) _ _ _ _)
                "Failed to fetch" [] _);
    reflexivity.
Defined.

(** The token [" t "] comes from the settings and is sent with its spaces. *)
Lemma C10_token_verbatim_witness :
  whitespace_only " t " = false /\
  trim " t " <> " t " /\
  requests Scenario.World
    (snd (Scenario.send_configured
            [Scenario.settings_reply; Return (Scenario.reply 200 None "")]))
  = [ settings_request; Scenario.posted Scenario.hook Scenario.spaced_headers ] /\
  header "Authorization"
    (req_headers (Scenario.posted Scenario.hook Scenario.spaced_headers))
  = Some "Bearer  t " /\
  header "Authorization"
    (req_headers (Scenario.posted Scenario.hook Scenario.spaced_headers))
  <> Some "Bearer t".
Proof.
  split; [reflexivity|]. split; [discriminate|]. split; [reflexivity|].
  assert (D : trim " t " <> " t ") by discriminate.
  pose proof (at_scenario C10_token_verbatim
                Scenario.shot VNull VNull VNull (VStr Scenario.hook) " t "
                (Scenario.start [Scenario.settings_reply;
                                 Return (Scenario.reply 200 None "")])
                (mkState Scenario.World [Return (Scenario.reply 200 None "")]
                         [settings_request] [])
                (snd (Scenario.send_configured
                        [Scenario.settings_reply; Return (Scenario.reply 200 None "")]))
                (fst (Scenario.send_configured
                        [Scenario.settings_reply; Return (Scenario.reply 200 None "")]))
                [ settings_request; Scenario.posted Scenario.hook Scenario.spaced_headers ]
                (Scenario.posted Scenario.hook Scenario.spaced_headers)
                eq_refl eq_refl eq_refl eq_refl (or_intror (or_introl eq_refl)) eq_refl)
    as [A B].
  split; [exact A | exact (B D)].
Defined.

(** *** The scenarios of the specification, run *)

Example send_401 :
  fst (Scenario.send_to Scenario.hook [Return (Scenario.reply 401 None "denied")])
  = Throw auth_failed.
Proof. reflexivity. Qed.

Example send_422 :
  fst (Scenario.send_to Scenario.hook [Return (Scenario.reply 422 None "bad")])
  = Throw validation_failed.
Proof. reflexivity. Qed.

Example send_500_boom :
  fst (Scenario.send_to Scenario.hook [Return (Scenario.reply 500 None "boom")])
  = Throw (Error "HTTP 500: boom").
Proof. reflexivity. Qed.

Example send_200_json :
  fst (Scenario.send_to Scenario.hook
         [Return (Scenario.reply 200 (Some "application/json") Scenario.ok_true_text)])
  = Return (VObj [("ok", VBool true)]).
Proof. reflexivity. Qed.

Example send_200_plain :
  fst (Scenario.send_to Scenario.hook [Return (Scenario.reply 200 None "")])
  = Return (VObj [("success", VBool true); ("status", VNum 200%float)]).
Proof. reflexivity. Qed.

Example send_unreachable :
  fst (Scenario.send_to Scenario.hook []) = Throw network_error.
Proof. reflexivity. Qed.

Example send_unconfigured :
  fst (Scenario.send_configured []) = Throw not_configured_error.
Proof. reflexivity. Qed.

(** Settings that parse to [null] are read as a failure: the property
    access throws, the [catch] clause answers with the empty settings. *)
Example settings_null :
  fst (Scenario.resolveConfig VNull VNull
         (Scenario.start [Return (Scenario.reply 200 (Some "application/json") "null")]))
  = Return (VStr "", VStr "").
Proof. reflexivity. Qed.

(** A body that cannot be read ends the send as a network error even
    when the status line said 401. *)
Example send_401_body_lost :
  fst (Scenario.send_to Scenario.hook
         [Return (mkResponse 401 None (Throw (TypeError "network error")))])
  = Throw network_error.
Proof. reflexivity. Qed.

(** A token that is truthy and not a string stops the send before the
    request. *)
Example send_numeric_token :
  Scenario.sendWebhook Scenario.shot VNull (VStr Scenario.hook) (VNum 5%float)
    (Scenario.start [])
  = (Throw (TypeError "trim is not a function"), Scenario.start []).
Proof. reflexivity. Qed.

End Properties.

(** ** Further properties of the service *)

Module ServiceProperties.
Import JS Platform WebhookService Properties.

(** *** Values *)

Lemma or_else_truthy_or_default (a d : value) :
  truthy (or_else a d) = true \/ or_else a d = d.
Proof.
  unfold or_else. destruct (truthy a) eqn:T; [left; exact T | right; reflexivity].
Qed.

Lemma or_else_idem (a d : value) : or_else (or_else a d) d = or_else a d.
Proof.
  unfold or_else. destruct (truthy a) eqn:T.
  - rewrite T. reflexivity.
  - destruct (truthy d); reflexivity.
Qed.

Lemma or_else_falsy (a d : value) : truthy a = false -> or_else a d = d.
Proof. unfold or_else. intros ->. reflexivity. Qed.

Lemma missing_or_blank_throws (v : value) (e : error) :
  missing_or_blank v = Throw e -> name e = "TypeError".
Proof.
  unfold missing_or_blank. destruct (truthy v); simpl; [|discriminate].
  destruct v; simpl; try discriminate; intros H; injection H as <-; reflexivity.
Qed.

Lemma rethrow_name (e : error) : name (rethrow e) <> "TypeError".
Proof.
  unfold rethrow. destruct (String.eqb_spec (name e) "TypeError") as [_|N].
  - discriminate.
  - exact N.
Qed.

(** *** formatWebhookPayload *)

(** In the payload of a present shot [incomplete] is truthy or [false],
    [samples] is truthy (an empty array when the shot has none) and
    [notes] is truthy or [null]: a receiver never finds [undefined], [0],
    [NaN] or the empty string in these three properties. *)
Theorem payload_defaults (shot notes : value) :
  truthy shot = true ->
  exists payload incomplete samples payload_notes,
    formatWebhookPayload shot notes = Return payload /\
    get payload "incomplete" = Return incomplete /\
    get payload "samples" = Return samples /\
    get payload "notes" = Return payload_notes /\
    (truthy incomplete = true \/ incomplete = VBool false) /\
    truthy samples = true /\
    (truthy payload_notes = true \/ payload_notes = VNull).
Proof.
  intros T.
  destruct (formatWebhookPayload_truthy shot notes T)
    as (v1 & v2 & v3 & v4 & v5 & v6 & v7 & v8 & v9 & _ & _ & _ & _ & _ & _ & _ & _ & _ & E).
  rewrite E. do 4 eexists.
  split; [reflexivity|]. split; [reflexivity|]. split; [reflexivity|].
  split; [reflexivity|].
  split; [apply or_else_truthy_or_default|].
  split; [|apply or_else_truthy_or_default].
  destruct (or_else_truthy_or_default v8 (VArr [])) as [H|H]; [exact H|].
  rewrite H. reflexivity.
Qed.

Lemma payload_defaults_witness :
  truthy (VObj [("incomplete", VNum 0%float); ("notes", VStr "")]) = true /\
  exists payload incomplete samples payload_notes,
    formatWebhookPayload (VObj [("incomplete", VNum 0%float); ("notes", VStr "")]) VUndefined
    = Return payload /\
    get payload "incomplete" = Return incomplete /\
    get payload "samples" = Return samples /\
    get payload "notes" = Return payload_notes /\
    (truthy incomplete = true \/ incomplete = VBool false) /\
    truthy samples = true /\
    (truthy payload_notes = true \/ payload_notes = VNull).
Proof.
  split; [reflexivity|].
  apply (payload_defaults (VObj [("incomplete", VNum 0%float); ("notes", VStr "")])
           VUndefined).
  reflexivity.
Defined.

(** Formatting is idempotent: a payload, formatted again without a notes
    override (or with a falsy one), comes back unchanged. *)
Theorem payload_format_idempotent (shot notes payload again : value) :
  truthy shot = true ->
  formatWebhookPayload shot notes = Return payload ->
  truthy again = false ->
  formatWebhookPayload payload again = Return payload.
Proof.
  intros T F A.
  destruct (formatWebhookPayload_truthy shot notes T)
    as (v1 & v2 & v3 & v4 & v5 & v6 & v7 & v8 & v9 & _ & _ & _ & _ & _ & _ & _ & _ & _ & E).
  rewrite E in F. injection F as <-.
  unfold formatWebhookPayload. simpl.
  rewrite !or_else_idem.
  rewrite (or_else_falsy (default_null again)
             (or_else (or_else notes v9) VNull))
    by (rewrite truthy_default_null; exact A).
  rewrite or_else_idem. reflexivity.
Qed.

Lemma payload_format_idempotent_witness :
  formatWebhookPayload Scenario.shot (VObj [("rating", VNum 4%float)])
  = Return (VObj
      [ ("id", VStr "000042"); ("timestamp", VNum 1700000000%float);
        ("profile", VStr "Classic"); ("profileId", VStr "p1");
        ("duration", VNum 28500%float); ("volume", VNum 36.5%float);
        ("incomplete", VBool false);
        ("samples", VArr [ VObj [("t", VNum 0%float); ("cp", VNum 1.5%float)] ]);
        ("notes", VObj [("rating", VNum 4%float)]) ]) /\
  formatWebhookPayload
    (VObj
      [ ("id", VStr "000042"); ("timestamp", VNum 1700000000%float);
        ("profile", VStr "Classic"); ("profileId", VStr "p1");
        ("duration", VNum 28500%float); ("volume", VNum 36.5%float);
        ("incomplete", VBool false);
        ("samples", VArr [ VObj [("t", VNum 0%float); ("cp", VNum 1.5%float)] ]);
        ("notes", VObj [("rating", VNum 4%float)]) ])
    VNull
  = Return (VObj
      [ ("id", VStr "000042"); ("timestamp", VNum 1700000000%float);
        ("profile", VStr "Classic"); ("profileId", VStr "p1");
        ("duration", VNum 28500%float); ("volume", VNum 36.5%float);
        ("incomplete", VBool false);
        ("samples", VArr [ VObj [("t", VNum 0%float); ("cp", VNum 1.5%float)] ]);
        ("notes", VObj [("rating", VNum 4%float)]) ]).
Proof.
  split; [reflexivity|].
  apply (payload_format_idempotent Scenario.shot (VObj [("rating", VNum 4%float)]) _ VNull);
    reflexivity.
Defined.

(** *** The error messages *)

Lemma digits_then_colon (d d' : Decimal.uint) (t t' : string) :
  NilEmpty.string_of_uint d ++ String ":" t =
  NilEmpty.string_of_uint d' ++ String ":" t' ->
  NilEmpty.string_of_uint d = NilEmpty.string_of_uint d' /\ t = t'.
Proof.
  revert d'. induction d as [|d IH|d IH|d IH|d IH|d IH|d IH|d IH|d IH|d IH|d IH];
    intros d'; destruct d'; simpl; intros H; try discriminate H;
    injection H as H;
    try (split; [reflexivity | exact H]; fail);
    destruct (IH _ H) as [E1 E2]; rewrite E1; (split; [reflexivity | exact E2]).
Qed.

Lemma string_of_status_digits (n : N) :
  string_of_status n = NilEmpty.string_of_uint (N.to_uint n).
Proof.
  unfold string_of_status, NilZero.string_of_uint.
  destruct (N.to_uint n) eqn:E; try reflexivity.
  destruct n; [discriminate E|].
  exfalso. exact (DecimalPos.Unsigned.to_uint_nonnil p E).
Qed.

Lemma string_of_status_inj (n n' : N) :
  string_of_status n = string_of_status n' -> n = n'.
Proof.
  intros H. apply DecimalN.Unsigned.to_uint_inj.
  assert (U : forall m, NilZero.uint_of_string (string_of_status m) = Some (N.to_uint m)).
  { intros m. apply NilZero.usu. destruct m; [discriminate|].
    apply DecimalPos.Unsigned.to_uint_nonnil. }
  pose proof (U n) as A. rewrite H, U in A. injection A as A. symmetry. exact A.
Qed.

(** The message of an HTTP error determines the status and the body text
    it was made from, and it is never the message of one of the five
    fixed errors: a caller that shows the message shows which failure it
    was. *)
Theorem http_error_distinguishable (status status' : N) (txt txt' : string) :
  (http_error status txt = http_error status' txt' -> status = status' /\ txt = txt') /\
  http_error status txt <> auth_failed /\
  http_error status txt <> validation_failed /\
  http_error status txt <> network_error /\
  http_error status txt <> not_configured_error /\
  http_error status txt <> invalid_shot.
Proof.
  split.
  - unfold http_error, Error. intros H. injection H as H.
    rewrite !string_of_status_digits in H.
    apply digits_then_colon in H. destruct H as [D T].
    rewrite <- !string_of_status_digits in D.
    split; [exact (string_of_status_inj _ _ D) | congruence].
  - repeat split; unfold http_error, Error; simpl; intros H; discriminate H.
Qed.

(** *** The asynchronous methods *)

Section Runs.

Variable World : Type.
Variable network : request -> World -> outcome response * World.
Variable JSON_parse : string -> option value.
Variable JSON_stringify : value -> string.

Local Abbreviation state := (WebhookService.state World).
Local Abbreviation getWebhookSettings :=
  (WebhookService.getWebhookSettings World network JSON_parse).
Local Abbreviation resolveConfig :=
  (WebhookService.resolveConfig World network JSON_parse).
Local Abbreviation deliver :=
  (WebhookService.deliver World network JSON_parse JSON_stringify).
Local Abbreviation sendWebhook :=
  (WebhookService.sendWebhook World network JSON_parse JSON_stringify).
Local Abbreviation post_request := (WebhookService.post_request JSON_stringify).
Local Abbreviation handle_response := (WebhookService.handle_response JSON_parse).
Local Abbreviation read_settings := (WebhookService.read_settings JSON_parse).
Local Abbreviation requested := (WebhookService.requested World).
Local Abbreviation logged := (WebhookService.logged World).
Local Abbreviation requests := (WebhookService.requests World).
Local Abbreviation console := (WebhookService.console World).
Local Abbreviation world := (WebhookService.world World).

Lemma read_settings_fields (r : response) (s : settings) :
  read_settings r = Return s ->
  (truthy (url s) = true \/ url s = VStr "") /\
  (truthy (authToken s) = true \/ authToken s = VStr "").
Proof.
  unfold WebhookService.read_settings, and_then.
  destruct (json JSON_parse r) as [parsed|e]; [|discriminate].
  destruct (get parsed "webhookUrl") as [a|e]; [|discriminate].
  destruct (get parsed "webhookAuthToken") as [b|e]; [|discriminate].
  intros H. injection H as <-. simpl.
  split; apply or_else_truthy_or_default.
Qed.

(** [getWebhookSettings] never rejects.  It makes exactly one request, the
    GET of [/api/settings]; each field it returns is truthy or the empty
    string, never [null] or [undefined]; and it either leaves the console
    alone or answers the empty settings and logs the one error that made
    it give up. *)
Theorem getWebhookSettings_never_rejects (st : state) :
  exists s st',
    getWebhookSettings st = (Return s, st') /\
    requests st' = (requests st ++ [settings_request])%list /\
    (truthy (url s) = true \/ url s = VStr "") /\
    (truthy (authToken s) = true \/ authToken s = VStr "") /\
    (console st' = console st \/
     s = empty_settings /\
     exists e, console st' =
               (console st ++ [("Failed to fetch webhook settings:", e)])%list).
Proof.
  rewrite getWebhookSettings_run.
  destruct (network settings_request (world st)) as [[r|e] w].
  - destruct (read_settings r) as [s|e] eqn:RS.
    + destruct (read_settings_fields r s RS) as [U A].
      exists s. eexists. split; [reflexivity|]. split; [reflexivity|].
      split; [exact U|]. split; [exact A|]. left. reflexivity.
    + do 2 eexists. split; [reflexivity|]. split; [reflexivity|].
      split; [right; reflexivity|]. split; [right; reflexivity|].
      right. split; [reflexivity|]. exists e. reflexivity.
  - do 2 eexists. split; [reflexivity|]. split; [reflexivity|].
    split; [right; reflexivity|]. split; [right; reflexivity|].
    right. split; [reflexivity|]. exists e. reflexivity.
Qed.

(** [getWebhookSettings] looks neither at the status nor at the content
    type of the response: whenever the body parses to an object, the
    settings are that object's [webhookUrl] and [webhookAuthToken], a
    missing or falsy one replaced by the empty string, and nothing is
    logged -- for a 404 or a 500 as for a 200. *)
Theorem getWebhookSettings_ignores_status (st : state) (r : response) (w : World)
  (txt : string) (props : list (string * value)) :
  network settings_request (world st) = (Return r, w) ->
  body r = Return txt ->
  JSON_parse txt = Some (VObj props) ->
  getWebhookSettings st =
  (Return (mkSettings
             (or_else (match lookup "webhookUrl" props with
                       | Some v => v
                       | None => VUndefined
                       end) (VStr ""))
             (or_else (match lookup "webhookAuthToken" props with
                       | Some v => v
                       | None => VUndefined
                       end) (VStr ""))),
   requested settings_request w st).
Proof.
  intros N B P. rewrite getWebhookSettings_run, N.
  unfold WebhookService.read_settings, json, and_then. rewrite B, P. reflexivity.
Qed.

(** *** What a send asks of the network *)

Lemma nonblank_truthy (u : string) :
  whitespace_only u = false -> truthy (VStr u) = true.
Proof. destruct u; simpl; [discriminate | reflexivity]. Qed.

Lemma deliver_requests (shot notes url token : value) (st : state) :
  requests (snd (deliver shot notes url token st)) = requests st \/
  exists req,
    req_method req = "POST" /\
    requests (snd (deliver shot notes url token st)) = (requests st ++ [req])%list.
Proof.
  rewrite deliver_run.
  destruct (missing_or_blank url) as [[|]|e]; try (left; reflexivity).
  destruct (formatWebhookPayload shot notes) as [payload|e]; try (left; reflexivity).
  destruct (build_headers token) as [headers|e]; try (left; reflexivity).
  right. exists (post_request url headers payload). split; [reflexivity|].
  cbv zeta.
  destruct (network (post_request url headers payload) (world st)) as [[r|e] w];
    reflexivity.
Qed.

(** A send makes at most two requests and never repeats one: with both
    overrides truthy, nothing or one POST; otherwise the GET of the
    settings, alone or followed by one POST.  Earlier requests stay as
    they were. *)
Theorem sendWebhook_requests (shot notes webhookUrl authToken : value) (st : state) :
  exists new,
    requests (snd (sendWebhook shot notes webhookUrl authToken st))
    = (requests st ++ new)%list /\
    (truthy webhookUrl && truthy authToken = true /\
     (new = [] \/ exists req, req_method req = "POST" /\ new = [req])
     \/
     truthy webhookUrl && truthy authToken = false /\
     (new = [settings_request] \/
      exists req, req_method req = "POST" /\ new = [settings_request; req])).
Proof.
  rewrite sendWebhook_run.
  destruct (truthy webhookUrl && truthy authToken) eqn:B.
  - pose proof B as B'. apply andb_true_iff in B'. destruct B' as [Hu Ht].
    rewrite (resolveConfig_supplied _ _ _ _ _ _ Hu Ht). simpl fst. simpl snd.
    destruct (deliver_requests shot notes webhookUrl authToken st)
      as [E | (req & P & E)]; rewrite E.
    + exists []. split; [symmetry; apply app_nil_r|]. left. split; [reflexivity|].
      left. reflexivity.
    + exists [req]. split; [reflexivity|]. left. split; [reflexivity|].
      right. exists req. split; [exact P | reflexivity].
  - rewrite (resolveConfig_fetched _ _ _ _ _ _ B).
    destruct (getWebhookSettings_total World network JSON_parse st) as (s & c & G).
    rewrite G. simpl fst. simpl snd.
    match goal with
    | |- context [deliver shot notes ?u ?t ?st1] =>
        destruct (deliver_requests shot notes u t st1) as [E | (req & P & E)];
        rewrite E; simpl
    end.
    + exists [settings_request]. split; [reflexivity|]. right. split; [reflexivity|].
      left. reflexivity.
    + exists [settings_request; req]. split; [rewrite <- app_assoc; reflexivity|].
      right. split; [reflexivity|]. right. exists req. split; [exact P | reflexivity].
Qed.

(** A send of a missing shot (any falsy value) always throws and never
    posts: it ends on the not-configured error, on the invalid-shot
    error, or on a [TypeError] for a URL that is not a string, having
    asked at most for the settings. *)
Theorem falsy_shot_never_posts (shot notes webhookUrl authToken : value) (st : state) :
  truthy shot = false ->
  exists e,
    fst (sendWebhook shot notes webhookUrl authToken st) = Throw e /\
    (e = not_configured_error \/ e = invalid_shot \/ name e = "TypeError") /\
    (requests (snd (sendWebhook shot notes webhookUrl authToken st)) = requests st \/
     requests (snd (sendWebhook shot notes webhookUrl authToken st))
     = (requests st ++ [settings_request])%list).
Proof.
  intros T. rewrite sendWebhook_run.
  destruct (resolveConfig_total World network JSON_parse webhookUrl authToken st)
    as (cfg & st1 & R & H).
  rewrite R, deliver_run.
  destruct (missing_or_blank (fst cfg)) as [[|]|e] eqn:B.
  - exists not_configured_error. split; [reflexivity|]. split; [tauto | exact H].
  - rewrite (formatWebhookPayload_falsy shot notes T).
    exists invalid_shot. split; [reflexivity|]. split; [tauto | exact H].
  - exists e. split; [reflexivity|].
    split; [right; right; exact (missing_or_blank_throws _ _ B) | exact H].
Qed.

(** Once the POST has been handed to the network, the send never ends on
    an error named [TypeError]: every such error of the [try] block is
    replaced by the network error.  A [TypeError] from [sendWebhook]
    therefore means that nothing was posted. *)
Theorem no_TypeError_after_post (shot notes webhookUrl authToken : value)
  (st st' : state) (e : error) (new : list request) (req : request) :
  sendWebhook shot notes webhookUrl authToken st = (Throw e, st') ->
  requests st' = (requests st ++ new)%list ->
  In req new ->
  req_method req = "POST" ->
  name e <> "TypeError".
Proof.
  intros S Hnew Hin Hpost.
  destruct (resolveConfig_total World network JSON_parse webhookUrl authToken st)
    as ([url token] & st1 & R & _).
  destruct (sendWebhook_posts _ _ _ _ _ _ _ _ _ _ _ _ _ _ _ _ R S Hnew Hin Hpost)
    as (u & payload & headers & -> & W & F & H & _).
  rewrite (sendWebhook_reply _ _ _ _ _ _ _ _ _ _ _ _ _ _ R W F H) in S.
  destruct (network (post_request (VStr u) headers payload) (world st1)) as [[r|e0] w].
  - injection S as S _. destruct (handle_response r) as [v|e1]; [discriminate S|].
    simpl in S. injection S as <-. apply rethrow_name.
  - injection S as <- _. apply rethrow_name.
Qed.

(** A response whose body cannot be read ends the send on the network
    error whenever the body is read at all, that is for every status
    outside 200..299 (401, 403 and 422 included) and for a JSON content
    type: the status line that did arrive is not reported. *)
Theorem lost_body_is_network_error
  (shot notes webhookUrl authToken token payload : value) (u : string)
  (headers : list (string * string)) (st st1 : state)
  (r : response) (w : World) (msg : string) :
  resolveConfig webhookUrl authToken st = (Return (VStr u, token), st1) ->
  whitespace_only u = false ->
  formatWebhookPayload shot notes = Return payload ->
  build_headers token = Return headers ->
  network (post_request (VStr u) headers payload) (world st1) = (Return r, w) ->
  body r = Throw (TypeError msg) ->
  ok r = false \/ is_json (content_type r) = true ->
  sendWebhook shot notes webhookUrl authToken st =
  (Throw network_error, requested (post_request (VStr u) headers payload) w st1).
Proof.
  intros R W F H N B C.
  rewrite (sendWebhook_reply _ _ _ _ _ _ _ _ _ _ _ _ _ _ R W F H), N.
  unfold WebhookService.handle_response, text, json, and_then. rewrite B.
  destruct (ok r); simpl.
  - destruct C as [C|C]; [discriminate C|]. rewrite C. reflexivity.
  - reflexivity.
Qed.

(** For a status in 200..299 without a JSON content type the body is
    never read: the send returns [{ success: true, status }] even when
    the body could not have been read. *)
Theorem plain_success_ignores_body
  (shot notes webhookUrl authToken token payload : value) (u : string)
  (headers : list (string * string)) (st st1 : state) (r : response) (w : World) :
  resolveConfig webhookUrl authToken st = (Return (VStr u, token), st1) ->
  whitespace_only u = false ->
  formatWebhookPayload shot notes = Return payload ->
  build_headers token = Return headers ->
  network (post_request (VStr u) headers payload) (world st1) = (Return r, w) ->
  ok r = true ->
  is_json (content_type r) = false ->
  sendWebhook shot notes webhookUrl authToken st =
  (Return (VObj [ ("success", VBool true);
                  ("status", VNum (number_of_status (status r))) ]),
   requested (post_request (VStr u) headers payload) w st1).
Proof.
  intros R W F H N O J.
  rewrite (sendWebhook_reply _ _ _ _ _ _ _ _ _ _ _ _ _ _ R W F H), N.
  unfold WebhookService.handle_response. rewrite O, J. reflexivity.
Qed.

(** A URL given by the caller without a token gets the token of the
    settings: the settings are fetched because the token is missing, and
    the POST to the caller's URL carries [Bearer ] followed by the
    configured token. *)
Theorem settings_token_goes_to_override_url
  (shot notes authToken payload : value) (u t : string) (st : state)
  (r : response) (w : World) (s : settings) :
  whitespace_only u = false ->
  truthy authToken = false ->
  network settings_request (world st) = (Return r, w) ->
  read_settings r = Return s ->
  WebhookService.authToken s = VStr t ->
  whitespace_only t = false ->
  formatWebhookPayload shot notes = Return payload ->
  requests (snd (sendWebhook shot notes (VStr u) authToken st))
  = (requests st ++
     [ settings_request;
       mkRequest u "POST"
         (base_headers ++ [("Authorization", append "Bearer " t)])
         (Some (JSON_stringify payload)) ])%list.
Proof.
  intros W A N RS TK Wt F.
  rewrite sendWebhook_run.
  rewrite resolveConfig_fetched by (rewrite A; apply andb_false_r).
  rewrite getWebhookSettings_run, N, RS. simpl fst. simpl snd.
  unfold or_else at 1. rewrite (nonblank_truthy u W).
  rewrite (or_else_falsy authToken _ A), TK.
  rewrite deliver_run, missing_or_blank_string, W, F, build_headers_string, Wt.
  cbv zeta.
  match goal with
  | |- context [network ?q ?x] => destruct (network q x) as [[r'|e'] w']
  end; simpl; rewrite <- app_assoc; reflexivity.
Qed.

Lemma truthy_or_null (v : value) : truthy (if truthy v then v else VNull) = truthy v.
Proof. destruct (truthy v) eqn:T; [exact T | reflexivity]. Qed.

Lemma or_else_or_null (v w : value) :
  or_else (if truthy v then v else VNull) w = or_else v w.
Proof. unfold or_else. rewrite truthy_or_null. destruct (truthy v); reflexivity. Qed.

Lemma formatWebhookPayload_falsy_notes (shot notes : value) :
  truthy notes = false ->
  formatWebhookPayload shot notes = formatWebhookPayload shot VNull.
Proof.
  intros N. destruct (truthy shot) eqn:T.
  - destruct (formatWebhookPayload_truthy shot notes T)
      as (v1 & v2 & v3 & v4 & v5 & v6 & v7 & v8 & v9
          & E1 & E2 & E3 & E4 & E5 & E6 & E7 & E8 & E9 & E).
    destruct (formatWebhookPayload_truthy shot VNull T)
      as (u1 & u2 & u3 & u4 & u5 & u6 & u7 & u8 & u9
          & F1 & F2 & F3 & F4 & F5 & F6 & F7 & F8 & F9 & F).
    rewrite E, F.
    rewrite E1 in F1. rewrite E2 in F2. rewrite E3 in F3. rewrite E4 in F4.
    rewrite E5 in F5. rewrite E6 in F6. rewrite E7 in F7. rewrite E8 in F8.
    rewrite E9 in F9.
    injection F1 as <-. injection F2 as <-. injection F3 as <-. injection F4 as <-.
    injection F5 as <-. injection F6 as <-. injection F7 as <-. injection F8 as <-.
    injection F9 as <-.
    rewrite (or_else_falsy notes v9 N). reflexivity.
  - rewrite !formatWebhookPayload_falsy by exact T. reflexivity.
Qed.

Lemma resolveConfig_or_null (webhookUrl authToken : value) (st : state) :
  resolveConfig (if truthy webhookUrl then webhookUrl else VNull)
                (if truthy authToken then authToken else VNull) st
  = resolveConfig webhookUrl authToken st.
Proof.
  destruct (truthy webhookUrl && truthy authToken) eqn:B.
  - apply andb_true_iff in B. destruct B as [Hu Ht]. rewrite Hu, Ht. reflexivity.
  - rewrite (resolveConfig_fetched _ _ _ webhookUrl authToken st B).
    rewrite resolveConfig_fetched by (rewrite !truthy_or_null; exact B).
    destruct (getWebhookSettings st) as [[s|e] st1]; [|reflexivity].
    rewrite !or_else_or_null. reflexivity.
Qed.

(** For each of [notes], [webhookUrl] and [authToken], every falsy
    argument ([undefined], [''], [0], [NaN], [false]) is the same as
    [null]: it counts as not given. *)
Theorem falsy_arguments_are_null (shot notes webhookUrl authToken : value) (st : state) :
  sendWebhook shot notes webhookUrl authToken st =
  sendWebhook shot
    (if truthy notes then notes else VNull)
    (if truthy webhookUrl then webhookUrl else VNull)
    (if truthy authToken then authToken else VNull) st.
Proof.
  rewrite !sendWebhook_run, resolveConfig_or_null.
  destruct (resolveConfig webhookUrl authToken st) as [[cfg|e] st1]; [|reflexivity].
  rewrite !deliver_run.
  destruct (truthy notes) eqn:N; [reflexivity|].
  rewrite (formatWebhookPayload_falsy_notes shot notes N). reflexivity.
Qed.

(** A resolved URL that is truthy and not a string (a number in the
    settings, say) ends the send on a [TypeError], not on the
    not-configured error; so does, for a present shot and a usable URL, a
    token that is truthy and not a string.  In both cases nothing is
    posted. *)
Theorem non_string_configuration_rejected
  (shot notes webhookUrl authToken url token : value) (st st1 : state) :
  resolveConfig webhookUrl authToken st = (Return (url, token), st1) ->
  (truthy url = true -> (forall s, url <> VStr s) ->
   exists e, sendWebhook shot notes webhookUrl authToken st = (Throw e, st1) /\
             name e = "TypeError") /\
  (forall u, url = VStr u -> whitespace_only u = false ->
   truthy shot = true -> truthy token = true -> (forall t, token <> VStr t) ->
   exists e, sendWebhook shot notes webhookUrl authToken st = (Throw e, st1) /\
             name e = "TypeError").
Proof.
  intros R. rewrite sendWebhook_run, R. simpl fst. simpl snd. rewrite deliver_run.
  split.
  - intros T NS. unfold missing_or_blank. rewrite T. simpl.
    destruct url; simpl; try (eexists; split; reflexivity).
    exfalso. exact (NS s eq_refl).
  - intros u -> W T Tt NS. rewrite missing_or_blank_string, W.
    destruct (formatWebhookPayload_truthy shot notes T)
      as (v1 & v2 & v3 & v4 & v5 & v6 & v7 & v8 & v9 & _ & _ & _ & _ & _ & _ & _ & _ & _ & E).
    rewrite E. unfold build_headers, token_provided. rewrite Tt.
    destruct token; simpl; try (eexists; split; reflexivity).
    exfalso. exact (NS s eq_refl).
Qed.

End Runs.

Lemma getWebhookSettings_ignores_status_witness :
  Visit.getWebhookSettings (Scenario.start [Visit.settings_reply_500])
  = (Return (mkSettings (VStr "https://example.com/hook") (VStr " t ")),
     mkState Scenario.World [] [settings_request] []).
Proof.
  refine (getWebhookSettings_ignores_status
            Scenario.World Scenario.network Visit.JSON_parse
            (Scenario.start [Visit.settings_reply_500])
            (Scenario.reply 500 None Scenario.settings_text) []
            Scenario.settings_text
            [ ("webhookUrl", VStr "https://example.com/hook");
              ("webhookAuthToken", VStr " t ") ] _ _ _);
    reflexivity.
Defined.

Local Abbreviation at_scenario thm :=
  (thm Scenario.World Scenario.network Scenario.JSON_parse Scenario.JSON_stringify).

Lemma falsy_shot_never_posts_witness :
  truthy VNull = false /\
  exists e,
    fst (Scenario.sendWebhook VNull VNull (VStr Scenario.hook) Scenario.secret
           (Scenario.start [])) = Throw e /\
    (e = not_configured_error \/ e = invalid_shot \/ name e = "TypeError") /\
    (requests Scenario.World
       (snd (Scenario.sendWebhook VNull VNull (VStr Scenario.hook) Scenario.secret
               (Scenario.start [])))
     = requests Scenario.World (Scenario.start []) \/
     requests Scenario.World
       (snd (Scenario.sendWebhook VNull VNull (VStr Scenario.hook) Scenario.secret
               (Scenario.start [])))
     = (requests Scenario.World (Scenario.start []) ++ [settings_request])%list).
Proof.
  split; [reflexivity|].
  apply (at_scenario falsy_shot_never_posts VNull VNull (VStr Scenario.hook)
           Scenario.secret (Scenario.start [])).
  reflexivity.
Defined.

Lemma no_TypeError_after_post_witness :
  Scenario.send_to Scenario.hook []
  = (Throw network_error,
     mkState Scenario.World []
             [Scenario.posted Scenario.hook Scenario.secret_headers] []) /\
  name network_error <> "TypeError".
Proof.
  split; [reflexivity|].
  refine (at_scenario no_TypeError_after_post
            Scenario.shot VNull (VStr Scenario.hook) Scenario.secret
            (Scenario.start [])
            (mkState Scenario.World []
                     [Scenario.posted Scenario.hook Scenario.secret_headers] [])
            network_error
            [Scenario.posted Scenario.hook Scenario.secret_headers]
            (Scenario.posted Scenario.hook Scenario.secret_headers) _ _ _ _).
  - reflexivity.
  - reflexivity.
  - left. reflexivity.
  - reflexivity.
Defined.

Lemma lost_body_is_network_error_witness :
  ok (mkResponse 401 None (Throw (TypeError "network error"))) = false /\
  Scenario.send_to Scenario.hook
    [Return (mkResponse 401 None (Throw (TypeError "network error")))]
  = (Throw network_error,
     mkState Scenario.World []
             [Scenario.posted Scenario.hook Scenario.secret_headers] []).
Proof.
  split; [reflexivity|].
  refine (at_scenario lost_body_is_network_error
            Scenario.shot VNull (VStr Scenario.hook) Scenario.secret Scenario.secret
            Scenario.payload Scenario.hook Scenario.secret_headers
            (Scenario.start [Return (mkResponse 401 None (Throw (TypeError "network error")))])
            (Scenario.start [Return (mkResponse 401 None (Throw (TypeError "network error")))])
            (mkResponse 401 None (Throw (TypeError "network error"))) []
            "network error" _ _ _ _ _ _ _);
    try reflexivity.
  left. reflexivity.
Defined.

Lemma plain_success_ignores_body_witness :
  Scenario.send_to Scenario.hook
    [Return (mkResponse 204 None (Throw (TypeError "network error")))]
  = (Return (VObj [ ("success", VBool true); ("status", VNum 204%float) ]),
     mkState Scenario.World []
             [Scenario.posted Scenario.hook Scenario.secret_headers] []).
Proof.
  refine (at_scenario plain_success_ignores_body
            Scenario.shot VNull (VStr Scenario.hook) Scenario.secret Scenario.secret
            Scenario.payload Scenario.hook Scenario.secret_headers
            (Scenario.start [Return (mkResponse 204 None (Throw (TypeError "network error")))])
            (Scenario.start [Return (mkResponse 204 None (Throw (TypeError "network error")))])
            (mkResponse 204 None (Throw (TypeError "network error"))) []
            _ _ _ _ _ _ _);
    reflexivity.
Defined.

Lemma settings_token_goes_to_override_url_witness :
  requests Scenario.World
    (snd (Scenario.sendWebhook Scenario.shot VNull (VStr "https://other.example/in") VNull
            (Scenario.start [Scenario.settings_reply;
                             Return (Scenario.reply 200 None "")])))
  = [ settings_request;
      mkRequest "https://other.example/in" "POST"
        (base_headers ++ [("Authorization", "Bearer  t ")])
        (Some (Scenario.JSON_stringify Scenario.payload)) ].
Proof.
  refine (at_scenario settings_token_goes_to_override_url
            Scenario.shot VNull VNull Scenario.payload
            "https://other.example/in" " t "
            (Scenario.start [Scenario.settings_reply;
                             Return (Scenario.reply 200 None "")])
            (Scenario.reply 200 (Some "application/json") Scenario.settings_text)
            [Return (Scenario.reply 200 None "")]
            (mkSettings (VStr Scenario.hook) (VStr " t "))
            _ _ _ _ _ _ _);
    reflexivity.
Defined.

Lemma non_string_configuration_rejected_witness :
  exists e,
    Scenario.sendWebhook Scenario.shot VNull (VNum 5%float) Scenario.secret
      (Scenario.start [])
    = (Throw e, Scenario.start []) /\
    name e = "TypeError".
Proof.
  refine (proj1 (at_scenario non_string_configuration_rejected
                   Scenario.shot VNull (VNum 5%float) Scenario.secret
                   (VNum 5%float) Scenario.secret
                   (Scenario.start []) (Scenario.start []) _) _ _).
  - reflexivity.
  - reflexivity.
  - intros s. discriminate.
Defined.

(** *** validateWebhookUrl *)

(** [validateWebhookUrl] throws exactly on the inputs that are truthy and
    not strings (a number, [true], an array, an object): the call of
    [trim] stands outside its [try] block.  On a string and on a falsy
    input it answers, whatever the parser does. *)
Theorem validateWebhookUrl_throws_iff (URL_parse : string -> option URL) (input : value) :
  (exists e, validateWebhookUrl URL_parse input = Throw e) <->
  truthy input = true /\ forall s, input <> VStr s.
Proof.
  unfold validateWebhookUrl. split.
  - intros [e H].
    destruct (missing_or_blank input) as [[|]|e'] eqn:B.
    + discriminate H.
    + simpl in H. destruct (URL_parse (to_string input)); discriminate H.
    + unfold missing_or_blank in B.
      destruct (truthy input) eqn:T; simpl in B; [|discriminate B].
      split; [reflexivity|]. intros s ->. simpl in B. discriminate B.
  - intros [T NS]. unfold missing_or_blank. rewrite T. simpl.
    destruct input; simpl; try (eexists; reflexivity).
    exfalso. exact (NS s eq_refl).
Qed.

End ServiceProperties.

(** ** Properties of the send-to-webhook action *)

Module HistoryCardProperties.
Import JS Platform WebhookService Properties ServiceProperties.

Section Runs.

Variable World : Type.
Variable network : request -> World -> outcome response * World.
Variable JSON_parse : string -> option value.
Variable JSON_stringify : value -> string.
Variable URL_parse : string -> option URL.

Local Abbreviation state := (WebhookService.state World).
Local Abbreviation page := (HistoryCard.page World).
Local Abbreviation getWebhookSettings :=
  (WebhookService.getWebhookSettings World network JSON_parse).
Local Abbreviation sendWebhook :=
  (WebhookService.sendWebhook World network JSON_parse JSON_stringify).
Local Abbreviation deliver :=
  (WebhookService.deliver World network JSON_parse JSON_stringify).
Local Abbreviation validateWebhookUrl := (WebhookService.validateWebhookUrl URL_parse).
Local Abbreviation handleSendWebhook :=
  (HistoryCard.handleSendWebhook World network JSON_parse JSON_stringify URL_parse).
Local Abbreviation read_settings := (WebhookService.read_settings JSON_parse).
Local Abbreviation requested := (WebhookService.requested World).
Local Abbreviation logged := (WebhookService.logged World).
Local Abbreviation requests := (WebhookService.requests World).
Local Abbreviation world := (WebhookService.world World).
Local Abbreviation service := (HistoryCard.service World).
Local Abbreviation alerts := (HistoryCard.alerts World).
Local Abbreviation ended := (HistoryCard.ended World).
Local Abbreviation failed := (HistoryCard.failed World).

(** The action, stage by stage. *)
Lemma handleSendWebhook_run (shot shotNotes : value) (p : page) :
  handleSendWebhook shot shotNotes p =
  match getWebhookSettings (service p) with
  | (Throw e, st1) => (Return tt, failed st1 e p)
  | (Return s, st1) =>
      match missing_or_blank (url s) with
      | Throw e => (Return tt, failed st1 e p)
      | Return true => (Return tt, ended st1 HistoryCard.not_configured_alert p)
      | Return false =>
          match validateWebhookUrl (url s) with
          | Throw e => (Return tt, failed st1 e p)
          | Return false => (Return tt, ended st1 HistoryCard.invalid_url_alert p)
          | Return true =>
              match sendWebhook shot shotNotes VUndefined VUndefined st1 with
              | (Return _, st2) => (Return tt, ended st2 HistoryCard.success_alert p)
              | (Throw e, st2) => (Return tt, failed st2 e p)
              end
          end
      end
  end.
Proof.
  unfold HistoryCard.handleSendWebhook, HistoryCard.try_finally, HistoryCard.try_catch,
    HistoryCard.bind, HistoryCard.await, HistoryCard.lift, HistoryCard.alert,
    HistoryCard.setIsSendingWebhook, HistoryCard.console_error,
    HistoryCard.failed, HistoryCard.ended, WebhookService.logged,
    WebhookService.console_error.
  simpl.
  destruct (getWebhookSettings (service p)) as [[s|e] st1]; [|reflexivity].
  destruct (missing_or_blank (url s)) as [[|]|e]; try reflexivity.
  destruct (validateWebhookUrl (url s)) as [[|]|e]; try reflexivity.
  simpl.
  destruct (sendWebhook shot shotNotes VUndefined VUndefined st1) as [[v|e] st2];
    reflexivity.
Qed.

Lemma validateWebhookUrl_true (v : value) :
  validateWebhookUrl v = Return true ->
  exists s, v = VStr s /\ whitespace_only s = false.
Proof.
  unfold WebhookService.validateWebhookUrl.
  destruct (missing_or_blank v) as [[|]|e] eqn:B; simpl; try discriminate.
  intros _. exact (missing_or_blank_false v B).
Qed.

Lemma getWebhookSettings_requests (st st1 : state) (s : settings) :
  getWebhookSettings st = (Return s, st1) ->
  requests st1 = (requests st ++ [settings_request])%list.
Proof.
  intros G.
  destruct (getWebhookSettings_total World network JSON_parse st) as (s' & c & E).
  rewrite G in E. injection E as _ ->. reflexivity.
Qed.

Lemma getWebhookSettings_returns (st : state) :
  exists s st1, getWebhookSettings st = (Return s, st1).
Proof.
  destruct (getWebhookSettings_total World network JSON_parse st) as (s & c & E).
  eauto.
Qed.

(** What the send made by the action asks of the network. *)
Lemma inner_send_requests (shot shotNotes : value) (st : state) :
  requests (snd (sendWebhook shot shotNotes VUndefined VUndefined st))
  = (requests st ++ [settings_request])%list \/
  exists req,
    req_method req = "POST" /\
    requests (snd (sendWebhook shot shotNotes VUndefined VUndefined st))
    = (requests st ++ [settings_request; req])%list.
Proof.
  destruct (sendWebhook_requests World network JSON_parse JSON_stringify
              shot shotNotes VUndefined VUndefined st)
    as (new & E & [[B _] | [_ [-> | (req & P & ->)]]]).
  - discriminate B.
  - left. exact E.
  - right. exists req. split; [exact P | exact E].
Qed.

Lemma deliver_returns (shot notes url token v : value) (st st2 : state) :
  deliver shot notes url token st = (Return v, st2) ->
  exists req,
    req_method req = "POST" /\ requests st2 = (requests st ++ [req])%list.
Proof.
  rewrite deliver_run.
  destruct (missing_or_blank url) as [[|]|e]; try discriminate.
  destruct (formatWebhookPayload shot notes) as [payload|e]; try discriminate.
  destruct (build_headers token) as [headers|e]; try discriminate.
  cbv zeta. intros D.
  exists (post_request JSON_stringify url headers payload). split; [reflexivity|].
  destruct (network (post_request JSON_stringify url headers payload) (world st))
    as [[r|e] w]; injection D as _ <-; reflexivity.
Qed.

Lemma inner_send_returns (shot shotNotes v : value) (st st2 : state) :
  sendWebhook shot shotNotes VUndefined VUndefined st = (Return v, st2) ->
  exists req,
    req_method req = "POST" /\
    requests st2 = (requests st ++ [settings_request; req])%list.
Proof.
  rewrite sendWebhook_run, resolveConfig_fetched by reflexivity.
  destruct (getWebhookSettings_total World network JSON_parse st) as (s & c & G).
  rewrite G. intros D.
  destruct (deliver_returns _ _ _ _ _ _ _ D) as (req & P & E).
  exists req. split; [exact P|]. rewrite E. simpl. rewrite <- app_assoc. reflexivity.
Qed.

(** The action never rejects.  However it ends, it has shown exactly one
    more alert -- the not-configured one, the invalid-URL one, the
    success one, or [Webhook failed: ] followed by the message of the
    error -- and [isSendingWebhook] is false again. *)
Theorem handleSendWebhook_always_ends (shot shotNotes : value) (p : page) :
  exists st msg,
    handleSendWebhook shot shotNotes p
    = (Return tt, HistoryCard.mkPage World st (alerts p ++ [msg]) false) /\
    (msg = HistoryCard.not_configured_alert \/
     msg = HistoryCard.invalid_url_alert \/
     msg = HistoryCard.success_alert \/
     exists e, msg = "Webhook failed: " ++ message e).
Proof.
  rewrite handleSendWebhook_run.
  destruct (getWebhookSettings (service p)) as [[s|e] st1].
  - destruct (missing_or_blank (url s)) as [[|]|e].
    + do 2 eexists. split; [reflexivity|]. tauto.
    + destruct (validateWebhookUrl (url s)) as [[|]|e].
      * destruct (sendWebhook shot shotNotes VUndefined VUndefined st1) as [[v|e] st2].
        -- do 2 eexists. split; [reflexivity|]. tauto.
        -- do 2 eexists. split; [reflexivity|]. right; right; right. eauto.
      * do 2 eexists. split; [reflexivity|]. tauto.
      * do 2 eexists. split; [reflexivity|]. right; right; right. eauto.
    + do 2 eexists. split; [reflexivity|]. right; right; right. eauto.
  - do 2 eexists. split; [reflexivity|]. right; right; right. eauto.
Qed.

(** One click asks for the settings once or twice and posts at most once:
    the requests it adds are the GET of the settings alone, that GET
    twice (the send fetches the settings again), or that GET twice and
    then one POST. *)
Theorem handleSendWebhook_requests (shot shotNotes : value) (p : page) :
  exists new,
    requests (service (snd (handleSendWebhook shot shotNotes p)))
    = (requests (service p) ++ new)%list /\
    (new = [settings_request] \/
     new = [settings_request; settings_request] \/
     exists req,
       req_method req = "POST" /\ new = [settings_request; settings_request; req]).
Proof.
  rewrite handleSendWebhook_run.
  destruct (getWebhookSettings (service p)) as [[s|e] st1] eqn:G.
  2: { destruct (getWebhookSettings_returns (service p)) as (s & st1' & E). congruence. }
  pose proof (getWebhookSettings_requests _ _ _ G) as R1.
  assert (One : exists new,
             requests st1 = (requests (service p) ++ new)%list /\
             (new = [settings_request] \/
              new = [settings_request; settings_request] \/
              exists req,
                req_method req = "POST" /\
                new = [settings_request; settings_request; req])).
  { exists [settings_request]. split; [exact R1 | left; reflexivity]. }
  destruct (missing_or_blank (url s)) as [[|]|e]; try exact One.
  destruct (validateWebhookUrl (url s)) as [[|]|e]; try exact One.
  destruct (inner_send_requests shot shotNotes st1) as [E | (req & P & E)];
    destruct (sendWebhook shot shotNotes VUndefined VUndefined st1) as [[v|e] st2];
    simpl in E; simpl; rewrite E, R1, <- app_assoc; simpl.
  - exists [settings_request; settings_request]. split; [reflexivity | tauto].
  - exists [settings_request; settings_request]. split; [reflexivity | tauto].
  - exists [settings_request; settings_request; req]. split; [reflexivity|].
    right; right. exists req. split; [exact P | reflexivity].
  - exists [settings_request; settings_request; req]. split; [reflexivity|].
    right; right. exists req. split; [exact P | reflexivity].
Qed.

(** The action posts only after [validateWebhookUrl] has accepted the
    URL of the settings it fetched first: whenever a POST is among the
    requests of a click, that first fetch gave a URL the check accepts. *)
Theorem handleSendWebhook_posts_only_validated (shot shotNotes : value) (p : page)
  (new : list request) (req : request) :
  requests (service (snd (handleSendWebhook shot shotNotes p)))
  = (requests (service p) ++ new)%list ->
  In req new ->
  req_method req = "POST" ->
  exists s st1,
    getWebhookSettings (service p) = (Return s, st1) /\
    validateWebhookUrl (url s) = Return true.
Proof.
  rewrite handleSendWebhook_run. intros Hnew Hin Hpost.
  destruct (getWebhookSettings_returns (service p)) as (s & st1 & G).
  rewrite G in Hnew. pose proof (getWebhookSettings_requests _ _ _ G) as R1.
  assert (No : requests st1 = (requests (service p) ++ new)%list -> False).
  { intros E. rewrite R1 in E. apply app_inv_head in E. subst new.
    destruct Hin as [<-|[]]. discriminate Hpost. }
  destruct (missing_or_blank (url s)) as [[|]|e];
    try (exfalso; apply No; exact Hnew).
  destruct (validateWebhookUrl (url s)) as [[|]|e] eqn:V;
    try (exfalso; apply No; exact Hnew).
  exists s, st1. split; [exact G | exact V].
Qed.

(** The success alert is shown only when the send has posted: after it,
    the requests of the click are the GET of the settings twice and one
    POST. *)
Theorem success_alert_means_posted (shot shotNotes : value) (p : page) :
  alerts (snd (handleSendWebhook shot shotNotes p))
  = (alerts p ++ [HistoryCard.success_alert])%list ->
  exists req,
    req_method req = "POST" /\
    requests (service (snd (handleSendWebhook shot shotNotes p)))
    = (requests (service p) ++ [settings_request; settings_request; req])%list.
Proof.
  rewrite handleSendWebhook_run.
  destruct (getWebhookSettings_returns (service p)) as (s & st1 & G).
  rewrite G. pose proof (getWebhookSettings_requests _ _ _ G) as R1.
  assert (Fail : forall e,
             (alerts p ++ [append "Webhook failed: " (message e)])%list
             = (alerts p ++ [HistoryCard.success_alert])%list -> False).
  { intros e E. apply app_inv_head in E. simpl in E. discriminate E. }
  destruct (missing_or_blank (url s)) as [[|]|e]; simpl;
    try (intros E; exfalso; exact (Fail _ E));
    try (intros E; apply app_inv_head in E; discriminate E).
  destruct (validateWebhookUrl (url s)) as [[|]|e]; simpl;
    try (intros E; exfalso; exact (Fail _ E));
    try (intros E; apply app_inv_head in E; discriminate E).
  destruct (sendWebhook shot shotNotes VUndefined VUndefined st1) as [[v|e] st2] eqn:D;
    simpl; try (intros E; exfalso; exact (Fail _ E)).
  intros _. destruct (inner_send_returns _ _ _ _ _ D) as (req & P & E).
  exists req. split; [exact P|]. rewrite E, R1, <- app_assoc. reflexivity.
Qed.

(** The URL that is checked and the URL that is posted to come from two
    fetches of the settings.  When the first fetch gives a URL that
    [validateWebhookUrl] accepts, the POST goes to whatever URL the second
    fetch gives, provided it is a string that is not blank: that URL is
    never shown to [validateWebhookUrl]. *)
Theorem handleSendWebhook_posts_to_refetched_url
  (shot shotNotes payload : value) (p : page) (s1 s2 : settings) (st1 st2 : state)
  (u2 : string) (headers : list (string * string)) :
  getWebhookSettings (service p) = (Return s1, st1) ->
  validateWebhookUrl (url s1) = Return true ->
  getWebhookSettings st1 = (Return s2, st2) ->
  url s2 = VStr u2 ->
  whitespace_only u2 = false ->
  formatWebhookPayload shot shotNotes = Return payload ->
  build_headers (authToken s2) = Return headers ->
  requests (service (snd (handleSendWebhook shot shotNotes p)))
  = (requests (service p) ++
     [ settings_request; settings_request;
       mkRequest u2 "POST" headers (Some (JSON_stringify payload)) ])%list.
Proof.
  intros G1 V G2 U W F H.
  rewrite handleSendWebhook_run, G1.
  destruct (validateWebhookUrl_true _ V) as (u1 & E1 & W1).
  rewrite E1, missing_or_blank_string, W1, <- E1, V.
  rewrite sendWebhook_run, resolveConfig_fetched by reflexivity.
  rewrite G2. simpl fst. simpl snd.
  unfold or_else at 1 2. simpl truthy. cbv iota.
  rewrite U, deliver_run, missing_or_blank_string, W.
  rewrite F, H. cbv zeta.
  assert (R1 := getWebhookSettings_requests _ _ _ G1).
  assert (R2 := getWebhookSettings_requests _ _ _ G2).
  match goal with
  | |- context [network ?q ?x] => destruct (network q x) as [[r|e] w]
  end.
  - destruct (caught (handle_response JSON_parse r)); simpl;
      rewrite R2, R1, <- !app_assoc; reflexivity.
  - simpl. rewrite R2, R1, <- !app_assoc. reflexivity.
Qed.

(** When the settings cannot be fetched or read, the action reports that
    the webhook is not configured: it shows that alert, and the one
    request of the click is the GET of the settings. *)
Theorem unreachable_settings_read_as_unconfigured (shot shotNotes : value) (p : page) :
  (exists e w, network settings_request (world (service p)) = (Throw e, w)) \/
  (exists r w e, network settings_request (world (service p)) = (Return r, w) /\
                 read_settings r = Throw e) ->
  alerts (snd (handleSendWebhook shot shotNotes p))
  = (alerts p ++ [HistoryCard.not_configured_alert])%list /\
  requests (service (snd (handleSendWebhook shot shotNotes p)))
  = (requests (service p) ++ [settings_request])%list.
Proof.
  intros H. rewrite handleSendWebhook_run, getWebhookSettings_run.
  destruct H as [(e & w & N) | (r & w & e & N & RS)]; rewrite N; [|rewrite RS];
    split; reflexivity.
Qed.

End Runs.

Local Abbreviation at_visit thm :=
  (thm Scenario.World Scenario.network Visit.JSON_parse Scenario.JSON_stringify
       Scenario.URL_parse).

(** The page after settings, settings again and a 200 without content. *)
Lemma handleSendWebhook_posts_only_validated_witness :
  exists s st1,
    Visit.getWebhookSettings
      (Scenario.start [Scenario.settings_reply; Scenario.settings_reply;
                       Return (Scenario.reply 200 None "")])
    = (Return s, st1) /\
    Scenario.validateWebhookUrl (url s) = Return true.
Proof.
  refine (at_visit handleSendWebhook_posts_only_validated
            Scenario.shot VNull
            (Visit.fresh [Scenario.settings_reply; Scenario.settings_reply;
                          Return (Scenario.reply 200 None "")])
            [ settings_request; settings_request;
              Scenario.posted Scenario.hook Scenario.spaced_headers ]
            (Scenario.posted Scenario.hook Scenario.spaced_headers) _ _ _).
  - reflexivity.
  - right. right. left. reflexivity.
  - reflexivity.
Defined.

Lemma success_alert_means_posted_witness :
  exists req,
    req_method req = "POST" /\
    requests Scenario.World
      (HistoryCard.service Scenario.World
         (snd (Visit.handleSendWebhook Scenario.shot VNull
                 (Visit.fresh [Scenario.settings_reply; Scenario.settings_reply;
                               Return (Scenario.reply 200 None "")]))))
    = [settings_request; settings_request; req].
Proof.
  refine (at_visit success_alert_means_posted
            Scenario.shot VNull
            (Visit.fresh [Scenario.settings_reply; Scenario.settings_reply;
                          Return (Scenario.reply 200 None "")]) _).
  reflexivity.
Defined.

(** The first fetch gives the https URL, the second [ftp://x]: the POST
    goes to [ftp://x], which [validateWebhookUrl] rejects. *)
Lemma handleSendWebhook_posts_to_refetched_url_witness :
  Scenario.validateWebhookUrl (VStr "ftp://x") = Return false /\
  requests Scenario.World
    (HistoryCard.service Scenario.World
       (snd (Visit.handleSendWebhook Scenario.shot VNull
               (Visit.fresh [Scenario.settings_reply; Visit.ftp_settings_reply;
                             Return (Scenario.reply 200 None "")]))))
  = [ settings_request; settings_request;
      mkRequest "ftp://x" "POST" base_headers
                (Some (Scenario.JSON_stringify Scenario.payload)) ].
Proof.
  split; [reflexivity|].
  refine (at_visit handleSendWebhook_posts_to_refetched_url
            Scenario.shot VNull Scenario.payload
            (Visit.fresh [Scenario.settings_reply; Visit.ftp_settings_reply;
                          Return (Scenario.reply 200 None "")])
            (mkSettings (VStr Scenario.hook) (VStr " t "))
            (mkSettings (VStr "ftp://x") (VStr ""))
            (mkState Scenario.World
               [Visit.ftp_settings_reply; Return (Scenario.reply 200 None "")]
               [settings_request] [])
            (mkState Scenario.World
               [Return (Scenario.reply 200 None "")]
               [settings_request; settings_request] [])
            "ftp://x" base_headers _ _ _ _ _ _ _);
    reflexivity.
Defined.

Lemma unreachable_settings_read_as_unconfigured_witness :
  HistoryCard.alerts Scenario.World
    (snd (Visit.handleSendWebhook Scenario.shot VNull (Visit.fresh [])))
  = [HistoryCard.not_configured_alert] /\
  requests Scenario.World
    (HistoryCard.service Scenario.World
       (snd (Visit.handleSendWebhook Scenario.shot VNull (Visit.fresh []))))
  = [settings_request].
Proof.
  refine (at_visit unreachable_settings_read_as_unconfigured
            Scenario.shot VNull (Visit.fresh []) _).
  left. exists Scenario.failed_to_fetch, []. reflexivity.
Defined.

End HistoryCardProperties.
